(** * Time-window resolution of the metadata module (wsgi/modules/metadata.py)

    A shallow embedding of the [timewindows] endpoint of [WI_Module] and of
    its two helpers [__timewindows_tw] and [__timewindows_ev], together with
    the properties of the event-to-time-window resolution engine.

    Conventions of the embedding:
    - Python floats and [datetime] values are exact rationals ([Q]); a
      [datetime] is its number of seconds, so [ev_time + timedelta(seconds=x)]
      is [ev_time + x].
    - Values decoded from JSON are [pyval]s.
    - Raised exceptions are the [Raise] outcome of the [M] monad, which also
      collects the lines written with [logs.error].
    - The inventory cache [self.ic], the travel-time table [self.ttt] and the
      configured [self.max_lines] are the fields of the record [WI_Module];
      functions of other modules ([str], [float], [json.loads],
      [DateTimeAttr.fromxml], [Math.delazi]) are the fields of the class
      [Library]. *)

From Stdlib Require Import QArith.
From stdpp Require Import gmap strings list fin_maps.

Open Scope string_scope.
Open Scope list_scope.

Set Warnings "-register-all".

(** ** Python values and exceptions *)

(** What [json.loads] can return. *)
Inductive pyval :=
| PyNone
| PyBool (b : bool)
| PyNum (q : Q)
| PyStr (s : string)
| PyList (l : list pyval)
| PyDict (d : list (string * pyval)).

(** The exception classes that occur in the module; [Exception] stands for
    the exceptions of the libraries, which derive from it. *)
Inductive exn :=
| WIClientError (msg : string)
| Exception (msg : string)
| TypeError
| ValueError (msg : string)
| KeyError
| IndexError.

Inductive res (A : Type) :=
| Ok (a : A)
| Raise (e : exn).
Arguments Ok {A} a.
Arguments Raise {A} e.

(** One line written with [logs.error]; the constructor is the message
    template and its arguments are the values formatted into it. *)
Inductive log_entry :=
| LogComputeException (e : exn)
| LogException (e : exn)
| LogNoStartphase (phase : string) (coords : Q * Q * Q * Q * Q * Q)
| LogNoEndphase (phase : string) (coords : Q * Q * Q * Q * Q * Q).

(** A computation returns or raises, and leaves the lines it has logged. *)
Definition M (A : Type) : Type := res A * list log_entry.

Definition ret {A} (a : A) : M A := (Ok a, []).
Definition raise {A} (e : exn) : M A := (Raise e, []).
Definition log (l : log_entry) : M unit := (Ok tt, [l]).
Definition lift {A} (r : res A) : M A := (r, []).

Definition bind {A B} (m : M A) (f : A → M B) : M B :=
  match m with
  | (Ok a, l) => let '(r, l') := f a in (r, l ++ l')
  | (Raise e, l) => (Raise e, l)
  end.

Definition rbind {A B} (m : res A) (f : A → res B) : res B :=
  match m with
  | Ok a => f a
  | Raise e => Raise e
  end.

Global Instance M_ret : MRet M := @ret.
Global Instance M_bind : MBind M := fun A B f m => bind m f.
Global Instance res_ret : MRet res := @Ok.
Global Instance res_bind : MBind res := fun A B f m => rbind m f.

(** The value of a computation, without its log. *)
Definition outcome {A} (m : M A) : res A := fst m.
Definition logged {A} (m : M A) : list log_entry := snd m.

(** [for x in xs: s = body(x, s)], where the body may raise. *)
Fixpoint for_each {A S} (body : A → S → M S) (xs : list A) (s : S) : M S :=
  match xs with
  | [] => ret s
  | x :: xs' => bind (body x s) (for_each body xs')
  end.

(** [len(v)]: defined on strings, lists and dicts. *)
Definition py_len (v : pyval) : res nat :=
  match v with
  | PyStr s => Ok (String.length s)
  | PyList l => Ok (length l)
  | PyDict d => Ok (length d)
  | _ => Raise TypeError
  end.

(** [v[i]] for a non-negative integer [i]. The keys of a decoded JSON object
    are strings, so an integer subscript of a dict is a [KeyError]. *)
Definition py_getitem (v : pyval) (i : nat) : res pyval :=
  match v with
  | PyList l => match l !! i with Some x => Ok x | None => Raise IndexError end
  | PyStr s =>
      match String.get i s with
      | Some c => Ok (PyStr (String c EmptyString))
      | None => Raise IndexError
      end
  | PyDict _ => Raise KeyError
  | _ => Raise TypeError
  end.

Fixpoint chars (s : string) : list pyval :=
  match s with
  | EmptyString => []
  | String c s' => PyStr (String c EmptyString) :: chars s'
  end.

(** [for x in v]: the elements of a list, the characters of a string, the
    keys of a dict. *)
Definition py_iter (v : pyval) : res (list pyval) :=
  match v with
  | PyList l => Ok l
  | PyStr s => Ok (chars s)
  | PyDict d => Ok (map (fun kv => PyStr (fst kv)) d)
  | _ => Raise TypeError
  end.

(** [except (TypeError, ValueError): handler]. *)
Definition except_type_value {A} (body : res A) (handler : res A) : res A :=
  match body with
  | Raise TypeError => handler
  | Raise (ValueError _) => handler
  | r => r
  end.

(** ** Data model *)

(** The dict returned by [ic.getStreamInfo]. *)
Record StreamInfo := {
  latitude : Q;
  longitude : Q;
  elevation : Q;
  size : Z
}.

(** An entry of the list returned by [ttt.compute]. *)
Record PhaseArrival := {
  phase : string;
  time : Q
}.

(** The tuple [(start_time, end_time, net, sta, cha, loc, size)]. *)
Record TimeWindowResult := {
  start_time : Q;
  end_time : Q;
  net : string;
  sta : string;
  cha : string;
  loc : string;
  tw_size : Z
}.

(** The attributes of [self] that the time-window code reads. [getStreamInfo]
    returns [None] when the stream is not available, and otherwise a dict
    with the four keys, which is true as a condition; [compute] raises or
    returns the list of arrivals. *)
Record WI_Module := {
  max_lines : Z;
  getStreamInfo : Q → Q → string → string → string → string → option StreamInfo;
  compute : Q → Q → Q → Q → Q → Q → res (list PhaseArrival)
}.

(** ** The code of the module *)

Definition Qlt_bool (x y : Q) : bool :=
  (Qnum x * QDen y <? Qnum y * QDen x)%Z.

(** The double quote that occurs in the messages about phases. *)
Definition dq : string := String (Ascii.ascii_of_nat 34) EmptyString.

Definition only_P_and_S : string :=
  " received! Only " ++ dq ++ "P" ++ dq ++ " and " ++ dq ++ "S" ++ dq
  ++ " are implemented.".

Inductive mode := tw | ev.

(** What [timewindows] has decoded from the parameters of the request. *)
Inductive request :=
| TwRequest (streams : pyval) (start_time end_time : Q)
| EvRequest (streams events : pyval) (startphase : string) (startoffset : Q)
    (endphase : string) (endoffset : Q).

(** Functions of other modules, which are not part of this one. The
    conversions [str], [float], [DateTimeAttr.fromxml] and [json.loads]
    return [None] where Python raises [TypeError] or [ValueError]
    ([UnicodeEncodeError] is a [ValueError]). [delazi] is
    [Math.delazi(lat1, lon1, lat2, lon2)[0]], the distance in degrees.
    [wsgicomm] declares [WIClientError]: whether the clause
    [except Exception] intercepts it depends on its base class. *)
Class Library := {
  py_str : pyval → option string;
  py_float : pyval → option Q;
  fromxml : pyval → option Q;
  json_loads : string → option pyval;
  delazi : Q → Q → Q → Q → Q;
  client_error_is_Exception : bool
}.

Section Metadata.

Context {lib : Library}.

Definition str (v : pyval) : res string :=
  match py_str v with
  | Some s => Ok s
  | None => Raise (ValueError "UnicodeEncodeError")
  end.

Definition float (v : pyval) : res Q :=
  match py_float v with
  | Some q => Ok q
  | None => Raise (ValueError "float")
  end.

Definition DateTimeAttr_fromxml (v : pyval) : res Q :=
  match fromxml v with
  | Some t => Ok t
  | None => Raise (ValueError "invalid datetime")
  end.

(** [raise wsgicomm.WIClientError, prefix + str(v)] *)
Definition raise_invalid {A} (prefix : string) (v : pyval) : res A :=
  s ← str v; Raise (WIClientError (prefix ++ s)).

(** Lines 331-341, and again 409-419: the four codes of a stream key. *)
Definition parse_nscl (nscl : pyval) : res (string * string * string * string) :=
  except_type_value
    (n ← py_len nscl;
     if negb (n =? 4)%nat then raise_invalid "invalid stream: " nscl
     else
       net ← py_getitem nscl 0 ≫= str;
       sta ← py_getitem nscl 1 ≫= str;
       cha ← py_getitem nscl 2 ≫= str;
       loc ← py_getitem nscl 3 ≫= str;
       Ok (net, sta, cha, loc))
    (raise_invalid "invalid stream: " nscl).

(** Lines 396-406: latitude, longitude, depth and origin time of an event. *)
Definition parse_event (ev : pyval) : res (Q * Q * Q * Q) :=
  except_type_value
    (n ← py_len ev;
     if negb (n =? 4)%nat then raise_invalid "invalid event: " ev
     else
       ev_lat ← py_getitem ev 0 ≫= float;
       ev_lon ← py_getitem ev 1 ≫= float;
       ev_dep ← py_getitem ev 2 ≫= float;
       ev_time ← py_getitem ev 3 ≫= DateTimeAttr_fromxml;
       Ok (ev_lat, ev_lon, ev_dep, ev_time))
    (raise_invalid "invalid event: " ev).

(** Lines 345-349, and again 495-499: [result.append(...)] followed by the
    test of [len(result)] against [self.max_lines]. *)
Definition append_checked (self : WI_Module) (result : list TimeWindowResult)
    (r : TimeWindowResult) : M (list TimeWindowResult) :=
  let result := result ++ [r] in
  if (max_lines self <? Z.of_nat (length result))%Z
  then raise (WIClientError "maximum request size exceeded")
  else mret result.

(** The body of the loop of [__timewindows_tw]. *)
Definition tw_step (self : WI_Module) (start_time end_time : Q)
    (nscl : pyval) (result : list TimeWindowResult) : M (list TimeWindowResult) :=
  '(net, sta, cha, loc) ← lift (parse_nscl nscl);
  match getStreamInfo self start_time end_time net sta cha loc with
  | Some streamInfo =>
      append_checked self result
        {| start_time := start_time; end_time := end_time;
           net := net; sta := sta; cha := cha; loc := loc;
           tw_size := size streamInfo |}
  | None => mret result
  end.

(** [__timewindows_tw(self, streams, start_time, end_time)] *)
Definition timewindows_tw (self : WI_Module) (streams : pyval)
    (start_time end_time : Q) : M (list TimeWindowResult) :=
  l ← lift (py_iter streams);
  for_each (tw_step self start_time end_time) l [].

(** [__isphase(self, ttphase, phase)] *)
Definition isphase (ttphase phase : string) : res bool :=
  if String.eqb phase "P" then
    if bool_decide (ttphase ∈ ["P"; "Pg"; "Pb"; "Pn"; "Pdif"; "Pdiff"])
    then Ok true else Ok false
  else if String.eqb phase "S" then
    if bool_decide (ttphase ∈ ["S"; "Sg"; "Sb"; "Sn"; "Sdif"; "Sdiff"])
       || String.prefix "SKS" ttphase
    then Ok true else Ok false
  else Raise (WIClientError ("Wrong phase" ++ only_P_and_S)).

Definition delta_threshold : Q := 120.

(** Lines 452-464 for [which = "startphase"] and lines 466-479 for
    [which = "endphase"]: the two loops over [ttlist] differ only in the
    variables they read and assign. The result is the new value of
    [start_time] (or [end_time]), [None] when no arrival made the loop break.
    The loop variable [tt] of the source is [arr] here, and [xphase] is
    [startphase] (or [endphase]). *)
Fixpoint phase_scan (which xphase : string) (delta ev_time offset : Q)
    (ttlist : list PhaseArrival) : res (option Q) :=
  match ttlist with
  | [] => Ok None
  | arr :: rest =>
      if String.eqb xphase "P" && Qle_bool delta_threshold delta then
        if String.prefix "PKP" (phase arr) || String.prefix "PKiKP" (phase arr)
        then Ok (Some (ev_time + (time arr + offset * 60))%Q)
        else phase_scan which xphase delta ev_time offset rest
      else if String.eqb xphase "S"
              || (String.eqb xphase "P" && Qlt_bool delta delta_threshold) then
        b ← isphase (phase arr) xphase;
        if b : bool
        then Ok (Some (ev_time + (time arr + offset * 60))%Q)
        else phase_scan which xphase delta ev_time offset rest
      else Raise (WIClientError ("Wrong " ++ which ++ only_P_and_S))
  end.

(** Does [except Exception] intercept the exception? *)
Definition is_Exception (e : exn) : bool :=
  match e with
  | WIClientError _ => client_error_is_Exception
  | _ => true
  end.

(** Lines 451-483: both loops inside [try], with [except Exception] logging
    the exception and going on with the next stream. [None] is that
    [continue]; [Some (start_time, end_time)] leaves the [try] normally. *)
Definition resolve_anchors (startphase : string) (startoffset : Q)
    (endphase : string) (endoffset : Q) (delta ev_time : Q)
    (ttlist : list PhaseArrival) : M (option (option Q * option Q)) :=
  match
    (start_time ← phase_scan "startphase" startphase delta ev_time startoffset ttlist;
     end_time ← phase_scan "endphase" endphase delta ev_time endoffset ttlist;
     Ok (start_time, end_time))
  with
  | Ok w => mret (Some w)
  | Raise e =>
      if is_Exception e then log (LogException e);; mret None
      else raise e
  end.

(** The body of the inner loop of [__timewindows_ev], lines 409-499. *)
Definition ev_step (self : WI_Module) (startphase : string) (startoffset : Q)
    (endphase : string) (endoffset : Q) (ev_lat ev_lon ev_dep ev_time : Q)
    (nscl : pyval) (result : list TimeWindowResult) : M (list TimeWindowResult) :=
  '(net, sta, cha, loc) ← lift (parse_nscl nscl);
  match getStreamInfo self ev_time ev_time net sta cha loc with
  | None => mret result
  | Some streamInfo =>
      let st_lat := latitude streamInfo in
      let st_lon := longitude streamInfo in
      let st_alt := elevation streamInfo in
      let delta := delazi ev_lat ev_lon st_lat st_lon in
      match compute self ev_lat ev_lon ev_dep st_lat st_lon st_alt with
      | Raise e =>
          if is_Exception e then log (LogComputeException e);; mret result
          else raise e
      | Ok ttlist =>
          w ← resolve_anchors startphase startoffset endphase endoffset
                delta ev_time ttlist;
          match w with
          | None => mret result
          | Some (start_time, end_time) =>
              let coords := (ev_lat, ev_lon, ev_dep, st_lat, st_lon, st_alt) in
              (if start_time is None then log (LogNoStartphase startphase coords)
               else mret ());;
              (if end_time is None then log (LogNoEndphase endphase coords)
               else mret ());;
              match start_time, end_time with
              | Some start_time, Some end_time =>
                  match getStreamInfo self start_time end_time net sta cha loc with
                  | Some streamInfo =>
                      append_checked self result
                        {| start_time := start_time; end_time := end_time;
                           net := net; sta := sta; cha := cha; loc := loc;
                           tw_size := size streamInfo |}
                  | None => mret result
                  end
              | _, _ => mret result
              end
          end
      end
  end.

(** The body of the outer loop of [__timewindows_ev], lines 396-499. *)
Definition ev_event (self : WI_Module) (streams : pyval) (startphase : string)
    (startoffset : Q) (endphase : string) (endoffset : Q)
    (ev : pyval) (result : list TimeWindowResult) : M (list TimeWindowResult) :=
  '(ev_lat, ev_lon, ev_dep, ev_time) ← lift (parse_event ev);
  l ← lift (py_iter streams);
  for_each (ev_step self startphase startoffset endphase endoffset
              ev_lat ev_lon ev_dep ev_time) l result.

(** [__timewindows_ev(self, streams, events, startphase, startoffset,
    endphase, endoffset)] *)
Definition timewindows_ev (self : WI_Module) (streams events : pyval)
    (startphase : string) (startoffset : Q) (endphase : string)
    (endoffset : Q) : M (list TimeWindowResult) :=
  evs ← lift (py_iter events);
  for_each (ev_event self streams startphase startoffset endphase endoffset)
    evs [].

(** [__get_param(self, params, conv, name)]; [params.get(name)] is [None]
    for a name that is not supplied. *)
Definition get_param {A} (params : gmap string string)
    (conv : option string → res A) (name : string) : res A :=
  except_type_value (conv (params !! name))
    (Raise (ValueError ("invalid " ++ name))).

Definition param_value (o : option string) : pyval :=
  match o with
  | Some s => PyStr s
  | None => PyNone
  end.

(** The converters handed to [__get_param]: [json.loads], [dta.fromxml],
    [float] and [str]. *)
Definition conv_json (o : option string) : res pyval :=
  match o with
  | Some s =>
      match json_loads s with
      | Some v => Ok v
      | None => Raise (ValueError "No JSON object could be decoded")
      end
  | None => Raise TypeError
  end.

Definition conv_fromxml (o : option string) : res Q :=
  DateTimeAttr_fromxml (param_value o).

Definition conv_float (o : option string) : res Q :=
  float (param_value o).

Definition conv_str (o : option string) : res string :=
  str (param_value o).

Definition tw_params : list string := ["start"; "end"].
Definition ev_params : list string :=
  ["events"; "startphase"; "startoffset"; "endphase"; "endoffset"].

(** [reduce(lambda a, b: a + (b in names), params, 0)]: iterating over a
    dict gives its keys. *)
Definition params_count (names : list string) (params : gmap string string) : nat :=
  foldl (fun a b => a + (if bool_decide (b ∈ names) then 1 else 0))
        0 (map_to_list params).*1.

(** Lines 519-535 of [timewindows]: the test for [streams] and the choice
    of the mode. *)
Definition timewindows_mode (params : gmap string string) : res mode :=
  match params !! "streams" with
  | None => Raise (WIClientError "missing streams")
  | Some _ =>
      let tw_params_count := params_count tw_params params in
      let ev_params_count := params_count ev_params params in
      if (tw_params_count =? length tw_params)%nat && (ev_params_count =? 0)%nat then
        Ok tw
      else if (ev_params_count =? length ev_params)%nat
              && (tw_params_count =? 0)%nat then
        Ok ev
      else Raise (WIClientError "invalid set of parameters")
  end.

(** Lines 537-553 of [timewindows]: decoding the parameters of the mode. *)
Definition timewindows_params (m : mode) (params : gmap string string) : res request :=
  match
    (streams ← get_param params conv_json "streams";
     match m with
     | tw =>
         start_time ← get_param params conv_fromxml "start";
         end_time ← get_param params conv_fromxml "end";
         Ok (TwRequest streams start_time end_time)
     | ev =>
         events ← get_param params conv_json "events";
         startphase ← get_param params conv_str "startphase";
         startoffset ← get_param params conv_float "startoffset";
         endphase ← get_param params conv_str "endphase";
         endoffset ← get_param params conv_float "endoffset";
         Ok (EvRequest streams events startphase startoffset endphase endoffset)
     end)
  with
  | Raise (ValueError msg) => Raise (WIClientError msg)
  | r => r
  end.

(** [timewindows(self, envir, params)]. The value is the list that the
    endpoint hands to [json.dumps]. *)
Definition timewindows (self : WI_Module) (params : gmap string string)
    : M (list TimeWindowResult) :=
  m ← lift (timewindows_mode params);
  req ← lift (timewindows_params m params);
  match req with
  | TwRequest streams start_time end_time =>
      timewindows_tw self streams start_time end_time
  | EvRequest streams events startphase startoffset endphase endoffset =>
      timewindows_ev self streams events startphase startoffset endphase endoffset
  end.

(** ** Notions used to state the properties *)

(** The request-too-large error. *)
Definition too_large : exn := WIClientError "maximum request size exceeded".

(** The same module configured with another [js.request.totalLineLimit]. *)
Definition with_max_lines (N : Z) (self : WI_Module) : WI_Module :=
  {| max_lines := N;
     getStreamInfo := getStreamInfo self;
     compute := compute self |}.

Definition P_family : list string := ["P"; "Pg"; "Pb"; "Pn"; "Pdif"; "Pdiff"].
Definition S_family : list string := ["S"; "Sg"; "Sb"; "Sn"; "Sdif"; "Sdiff"].

Definition PKP_name (name : string) : bool :=
  String.prefix "PKP" name || String.prefix "PKiKP" name.

(** The phase rule in the words of the specification: which arrival names
    anchor a requested phase, ["P"] or ["S"], at distance [delta]. *)
Definition anchor_rule (xphase : string) (delta : Q) (name : string) : bool :=
  if decide (xphase = "P") then
    if Qlt_le_dec delta 120 then bool_decide (name ∈ P_family)
    else PKP_name name
  else bool_decide (name ∈ S_family) || String.prefix "SKS" name.

(** The first arrival of the sequence whose name the rule accepts. *)
Definition first_arrival (xphase : string) (delta : Q)
    (ttlist : list PhaseArrival) : option PhaseArrival :=
  find (fun arr => anchor_rule xphase delta (phase arr)) ttlist.

(** The time that a loop assigns when it breaks at the arrival [arr]. *)
Definition anchored (ev_time offset : Q) (arr : PhaseArrival) : Q :=
  (ev_time + (time arr + offset * 60))%Q.


(** [r] is the result of [__timewindows_tw] for the stream [nscl]: its
    codes, the window of the caller and the size that the cache reports. *)
Definition tw_result_of (self : WI_Module) (start_time end_time : Q)
    (nscl : pyval) (r : TimeWindowResult) : Prop :=
  ∃ knet ksta kcha kloc streamInfo,
    parse_nscl nscl = Ok (knet, ksta, kcha, kloc) ∧
    getStreamInfo self start_time end_time knet ksta kcha kloc
      = Some streamInfo ∧
    r = {| start_time := start_time; end_time := end_time;
           net := knet; sta := ksta; cha := kcha; loc := kloc;
           tw_size := size streamInfo |}.

End Metadata.

(** Which of the names the request supplies. *)
Definition all_supplied (names : list string) (params : gmap string string) : Prop :=
  ∀ k, k ∈ names → is_Some (params !! k).
Definition none_supplied (names : list string) (params : gmap string string) : Prop :=
  ∀ k, k ∈ names → params !! k = None.

(** ** The export of a selection *)

(** The attributes of an object of the class [DownFile], which
    [download_selection] declares; [text] stands for the iterator over
    the characters of the text. *)
Module DownFile.
Record t := {
  text : string;
  size : nat;
  content_type : string;
  filename : string
}.
End DownFile.

(** The line feed that ends a line of the export. *)
Definition nl : string := String (Ascii.ascii_of_nat 10) EmptyString.

(** [for x in xs: s = body(x, s)] where nothing is logged. *)
Fixpoint rfor_each {A S} (body : A → S → res S) (xs : list A) (s : S) : res S :=
  match xs with
  | [] => Ok s
  | x :: xs' => s' ← body x s; rfor_each body xs' s'
  end.

Section Selection.

Context {lib : Library}.

(** [DownFile.__init__(self, text, filename, content_type)]: the text is a
    string, so that the test of [isinstance] passes; the content type is
    'text/plain' whatever the argument is. *)
Definition DownFile_init (text filename content_type : string) : res DownFile.t :=
  Ok {| DownFile.text := text;
        DownFile.size := String.length text;
        DownFile.content_type := "text/plain";
        DownFile.filename := filename |}.

(** ['%s, %s, %s, %s\n' % (net, sta, cha, loc)] *)
Definition csv_line (codes : string * string * string * string) : string :=
  let '(net, sta, cha, loc) := codes in
  (net ++ ", " ++ sta ++ ", " ++ cha ++ ", " ++ loc ++ nl)%string.

(** The body of the loop of [download_selection], lines 302-315. *)
Definition download_step (nscl : pyval) (text : string) : res string :=
  codes ← parse_nscl nscl;
  Ok (text ++ csv_line codes)%string.

(** [download_selection(self, envir, params)]: the bare [except] turns
    every exception of [json.loads(params.get('streams'))] into the client
    error. *)
Definition download_selection (params : gmap string string) : res DownFile.t :=
  match conv_json (params !! "streams") with
  | Raise _ =>
      Raise (WIClientError
               "invalid or inexistent values in parameter 'streams'")
  | Ok streams =>
      l ← py_iter streams;
      text ← rfor_each download_step l "";
      DownFile_init text "stationSelection.csv" "text/plain"
  end.

(** The lines of the keys, one after the other. *)
Definition csv_text (keys : list (string * string * string * string)) : string :=
  foldr (fun codes text => (csv_line codes ++ text)%string) "" keys.

(** Is the key well formed and the stream known to the cache in the window? *)
Definition tw_known (self : WI_Module) (start_time end_time : Q)
    (nscl : pyval) : bool :=
  match parse_nscl nscl with
  | Ok (knet, ksta, kcha, kloc) =>
      match getStreamInfo self start_time end_time knet ksta kcha kloc with
      | Some _ => true
      | None => false
      end
  | Raise _ => false
  end.

End Selection.

(** What a piece of a request does to the list of results, whatever the
    list is when the piece starts: the results it appends, in order, and the
    exception it raises after them, if any. *)
Definition trace : Type := list TimeWindowResult * option exn.

Definition nonempty {A} (l : list A) : bool :=
  match l with
  | [] => false
  | _ :: _ => true
  end.

(** Appending the results of a trace to [acc] under the cap [N]. *)
Definition replay (N : Z) (acc : list TimeWindowResult) (tr : trace)
    : res (list TimeWindowResult) :=
  if nonempty (fst tr) && (N <? Z.of_nat (length (acc ++ fst tr)))%Z
  then Raise too_large
  else match snd tr with
       | Some e => Raise e
       | None => Ok (acc ++ fst tr)
       end.

(** How often the character occurs in the string. *)
Fixpoint count_char (c : Ascii.ascii) (s : string) : nat :=
  match s with
  | EmptyString => 0
  | String c' s' => (if Ascii.eqb c c' then 1 else 0) + count_char c s'
  end.

Definition newline : Ascii.ascii := Ascii.ascii_of_nat 10.

(** The sum of the lengths of the four codes of a key. *)
Definition codes_length (codes : string * string * string * string) : nat :=
  let '(knet, ksta, kcha, kloc) := codes in
  String.length knet + String.length ksta + String.length kcha
  + String.length kloc.

(** ** A small inventory, for the examples *)

Definition ex_epoch : string := "1970-01-01T00:00:00Z".

(** Events and stations of the examples lie on the equator, the stations
    east of the events, so that the distance is the difference of the
    longitudes. Strings are rendered as themselves. *)
Definition ex_library (client_error_is_Exception : bool) : Library := {|
  py_str := fun v => match v with PyStr s => Some s | _ => Some "<value>" end;
  py_float := fun v => match v with PyNum q => Some q | _ => None end;
  fromxml := fun v =>
    match v with
    | PyStr s => if String.eqb s ex_epoch then Some 0%Q else None
    | _ => None
    end;
  json_loads := fun s => if String.eqb s "[]" then Some (PyList []) else None;
  delazi := fun lat1 lon1 lat2 lon2 => (lon2 - lon1)%Q;
  client_error_is_Exception := client_error_is_Exception
|}.

Definition ex_station (lon : Q) : StreamInfo :=
  {| latitude := 0; longitude := lon; elevation := 0; size := 4096 |}.

(** Three stations, at 1, 120 and 150 degrees of longitude. The travel-time
    table fails for a negative depth. *)
Definition ex_self : WI_Module := {|
  max_lines := 10000;
  getStreamInfo := fun start_time end_time net sta cha loc =>
    if String.eqb sta "APE" then Some (ex_station 1)
    else if String.eqb sta "EDGE" then Some (ex_station 120)
    else if String.eqb sta "FAR" then Some (ex_station 150)
    else None;
  compute := fun ev_lat ev_lon ev_dep st_lat st_lon st_alt =>
    if Qlt_bool ev_dep 0 then Raise (Exception "depth out of range")
    else if Qle_bool 120 (st_lon - ev_lon) then
      Ok [ {| phase := "Pdiff"; time := 900 |};
           {| phase := "PKP"; time := 1140 |};
           {| phase := "SKS"; time := 1500 |} ]
    else
      Ok [ {| phase := "P"; time := 20 |}; {| phase := "S"; time := 35 |} ]
|}.

Definition ex_stream (sta : string) : pyval :=
  PyList [PyStr "GE"; PyStr sta; PyStr "BHZ"; PyStr ""].

Definition ex_event (depth : Q) : pyval :=
  PyList [PyNum 0; PyNum 0; PyNum depth; PyStr ex_epoch].

Definition ex_result (sta : string) (start_time end_time : Q) : TimeWindowResult :=
  {| start_time := start_time; end_time := end_time;
     net := "GE"; sta := sta; cha := "BHZ"; loc := "";
     tw_size := 4096 |}.

Definition ex_arrival (phase : string) (time : Q) : PhaseArrival :=
  {| phase := phase; time := time |}.

(** The parameters of an explicit request that lacks [streams]. *)
Definition ex_params_without_streams : gmap string string :=
  {[ "start" := ex_epoch; "end" := ex_epoch ]}.

Definition ex_params_tw : gmap string string :=
  {[ "streams" := "[]"; "start" := ex_epoch; "end" := ex_epoch ]}.


(** A key of three components, and a key that is an object. *)
Definition ex_short_key : pyval := PyList [PyStr "GE"; PyStr "APE"; PyStr "BHZ"].

(** The file that the export makes of the two streams of the examples. *)
Definition ex_file : DownFile.t :=
  {| DownFile.text := "GE, APE, BHZ, " ++ nl ++ "GE, FAR, BHZ, " ++ nl;
     DownFile.size := 30;
     DownFile.content_type := "text/plain";
     DownFile.filename := "stationSelection.csv" |}.

(** The JSON text of a list of keys, for a library that decodes it. *)
Definition ex_json_key (sta : string) : string :=
  "[" ++ dq ++ "GE" ++ dq ++ ", " ++ dq ++ sta ++ dq ++ ", "
  ++ dq ++ "BHZ" ++ dq ++ ", " ++ dq ++ dq ++ "]".

Definition ex_json_streams : string :=
  "[" ++ ex_json_key "APE" ++ ", " ++ ex_json_key "FAR" ++ "]".

Definition ex_json_events : string := "[[0, 0, 10, " ++ dq ++ ex_epoch ++ dq ++ "]]".

(** The library of the examples, decoding the two texts above and the
    numbers -1 and 2 as well. *)
Definition ex_library_json : Library := {|
  py_str := py_str (Library := ex_library true);
  py_float := fun v =>
    match v with
    | PyNum q => Some q
    | PyStr s =>
        if String.eqb s "-1" then Some (-1)%Q
        else if String.eqb s "2" then Some 2%Q else None
    | _ => None
    end;
  fromxml := fromxml (Library := ex_library true);
  json_loads := fun s =>
    if String.eqb s ex_json_streams
    then Some (PyList [ex_stream "APE"; ex_stream "FAR"])
    else if String.eqb s ex_json_events then Some (PyList [ex_event 10])
    else json_loads (Library := ex_library true) s;
  delazi := delazi (Library := ex_library true);
  client_error_is_Exception := true
|}.

Definition ex_params_streams : gmap string string :=
  {[ "streams" := ex_json_streams; "start" := ex_epoch; "end" := ex_epoch ]}.

Definition ex_params_ev : gmap string string :=
  {[ "streams" := ex_json_streams; "events" := ex_json_events;
     "startphase" := "P"; "startoffset" := "-1";
     "endphase" := "S"; "endoffset" := "2" ]}.


(** ** Reasoning about computations *)

Lemma outcome_bind {A B} (m : M A) (f : A → M B) :
  outcome (m ≫= f) = outcome m ≫= (fun a => outcome (f a)).
Proof.
  destruct m as [[a|e] l]; cbn; [|done].
  by destruct (f a).
Qed.

Lemma outcome_lift {A} (r : res A) : outcome (lift r) = r.
Proof. done. Qed.

Lemma outcome_for_each_cons {A S} (body : A → S → M S) x xs s :
  outcome (for_each body (x :: xs) s)
  = outcome (body x s) ≫= (fun s' => outcome (for_each body xs s')).
Proof. apply (outcome_bind (body x s)). Qed.

Lemma outcome_for_each_app {A S} (body : A → S → M S) xs ys s :
  outcome (for_each body (xs ++ ys) s)
  = outcome (for_each body xs s) ≫= (fun s' => outcome (for_each body ys s')).
Proof.
  revert s. induction xs as [|x xs IH]; intros s; [done|].
  rewrite <- app_comm_cons, !outcome_for_each_cons.
  destruct (outcome (body x s)) as [s'|e]; cbn; [apply IH | done].
Qed.



(** ** The scan for the anchor of a phase *)

Lemma Qlt_bool_iff x y : Qlt_bool x y = true ↔ (x < y)%Q.
Proof. unfold Qlt_bool, Qlt. apply Z.ltb_lt. Qed.

Lemma Qle_bool_false x y : Qle_bool x y = false ↔ (y < x)%Q.
Proof.
  rewrite <- not_true_iff_false, Qle_bool_iff. split.
  - apply Qnot_le_lt.
  - apply Qlt_not_le.
Qed.

Lemma isphase_P name :
  isphase name "P" = Ok (bool_decide (name ∈ P_family)).
Proof. unfold isphase, P_family. cbn. by case_bool_decide. Qed.

Lemma isphase_S name :
  isphase name "S"
  = Ok (bool_decide (name ∈ S_family) || String.prefix "SKS" name).
Proof.
  unfold isphase, S_family. cbn.
  by destruct (bool_decide _ || String.prefix "SKS" name).
Qed.

(** For ["P"] at or beyond the threshold the loop looks at nothing but the
    names that start with PKP or PKiKP. *)
Lemma phase_scan_P_far which delta ev_time offset ttlist :
  (delta_threshold <= delta)%Q →
  phase_scan which "P" delta ev_time offset ttlist
  = Ok (anchored ev_time offset
          <$> find (fun arr => PKP_name (phase arr)) ttlist).
Proof.
  intros Hfar%Qle_bool_iff.
  induction ttlist as [|arr rest IH]; [done|].
  cbn [phase_scan find]. rewrite Hfar. cbn [String.eqb Ascii.eqb andb].
  change (String.eqb "P" "P") with true. cbn [andb].
  fold (PKP_name (phase arr)).
  by destruct (PKP_name (phase arr)).
Qed.

Lemma phase_scan_P_near which delta ev_time offset ttlist :
  (delta < delta_threshold)%Q →
  phase_scan which "P" delta ev_time offset ttlist
  = Ok (anchored ev_time offset
          <$> find (fun arr => bool_decide (phase arr ∈ P_family)) ttlist).
Proof.
  intros Hnear.
  assert (Qle_bool delta_threshold delta = false) as Hle
    by by apply Qle_bool_false.
  apply Qlt_bool_iff in Hnear.
  induction ttlist as [|arr rest IH]; [done|].
  cbn [phase_scan find]. rewrite Hle, Hnear.
  change (String.eqb "P" "P") with true.
  change (String.eqb "P" "S") with false. cbn [andb orb].
  rewrite isphase_P. cbn [mbind res_bind rbind].
  by destruct (bool_decide (phase arr ∈ P_family)).
Qed.

Lemma phase_scan_S which delta ev_time offset ttlist :
  phase_scan which "S" delta ev_time offset ttlist
  = Ok (anchored ev_time offset
          <$> find (fun arr => bool_decide (phase arr ∈ S_family)
                               || String.prefix "SKS" (phase arr)) ttlist).
Proof.
  induction ttlist as [|arr rest IH]; [done|].
  cbn [phase_scan find].
  change (String.eqb "S" "P") with false.
  change (String.eqb "S" "S") with true. cbn [andb orb].
  rewrite isphase_S. cbn [mbind res_bind rbind].
  by destruct (bool_decide (phase arr ∈ S_family)
               || String.prefix "SKS" (phase arr)).
Qed.

(** For a requested phase ["P"] or ["S"] the loop finds the first arrival
    that the phase rule accepts. *)
Lemma phase_scan_first_arrival which xphase delta ev_time offset ttlist :
  xphase = "P" ∨ xphase = "S" →
  phase_scan which xphase delta ev_time offset ttlist
  = Ok (anchored ev_time offset <$> first_arrival xphase delta ttlist).
Proof.
  unfold first_arrival, anchor_rule. intros [-> | ->].
  - destruct (decide ("P" = "P")); [|done].
    destruct (Qlt_le_dec delta 120) as [Hnear | Hfar].
    + by apply phase_scan_P_near.
    + by apply phase_scan_P_far.
  - destruct (decide ("S" = "P")); [done|]. apply phase_scan_S.
Qed.

(** Any other requested phase makes the loop raise at the first arrival;
    over an empty sequence the loop body never runs. *)
Lemma phase_scan_wrong_phase which xphase delta ev_time offset ttlist :
  xphase ≠ "P" → xphase ≠ "S" →
  phase_scan which xphase delta ev_time offset ttlist
  = match ttlist with
    | [] => Ok None
    | _ :: _ => Raise (WIClientError ("Wrong " ++ which ++ only_P_and_S))
    end.
Proof.
  intros HP%String.eqb_neq HS%String.eqb_neq.
  destruct ttlist as [|arr rest]; [done|].
  cbn [phase_scan]. by rewrite HP, HS.
Qed.


(** ** The bodies of the loops *)

(** Two equations with the same left-hand side give an equation between
    their right-hand sides. *)
Ltac same_lhs :=
  repeat match goal with
         | H1 : ?x = _, H2 : ?x = _ |- _ => rewrite H1 in H2; simplify_eq
         end.

Section Properties.

Context {lib : Library}.

Lemma outcome_append_checked self result r :
  outcome (append_checked self result r)
  = if (max_lines self <? Z.of_nat (length (result ++ [r])))%Z
    then Raise too_large else Ok (result ++ [r]).
Proof. unfold append_checked. by case_match. Qed.

Lemma outcome_tw_step self start_time end_time nscl result :
  outcome (tw_step self start_time end_time nscl result)
  = '(net, sta, cha, loc) ← parse_nscl nscl;
    match getStreamInfo self start_time end_time net sta cha loc with
    | Some streamInfo =>
        outcome (append_checked self result
          {| start_time := start_time; end_time := end_time;
             net := net; sta := sta; cha := cha; loc := loc;
             tw_size := size streamInfo |})
    | None => Ok result
    end.
Proof.
  unfold tw_step. rewrite outcome_bind, outcome_lift.
  destruct (parse_nscl nscl) as [[[[net sta] cha] loc]|e]; [|done].
  cbn [mbind res_bind rbind]. by case_match.
Qed.

(** The outcome of the body of the inner loop of [__timewindows_ev]: the
    exceptions of [compute] and of the two scans meet the same kind of
    handler, and logging does not change the outcome. *)
Lemma outcome_ev_step self startphase startoffset endphase endoffset
    ev_lat ev_lon ev_dep ev_time nscl result :
  outcome (ev_step self startphase startoffset endphase endoffset
             ev_lat ev_lon ev_dep ev_time nscl result)
  = '(net, sta, cha, loc) ← parse_nscl nscl;
    match getStreamInfo self ev_time ev_time net sta cha loc with
    | None => Ok result
    | Some probe =>
        let delta := delazi ev_lat ev_lon (latitude probe) (longitude probe) in
        match
          (ttlist ← compute self ev_lat ev_lon ev_dep
                      (latitude probe) (longitude probe) (elevation probe);
           st ← phase_scan "startphase" startphase delta ev_time startoffset ttlist;
           en ← phase_scan "endphase" endphase delta ev_time endoffset ttlist;
           Ok (st, en))
        with
        | Raise e => if is_Exception e then Ok result else Raise e
        | Ok (Some st, Some en) =>
            match getStreamInfo self st en net sta cha loc with
            | Some streamInfo =>
                outcome (append_checked self result
                  {| start_time := st; end_time := en;
                     net := net; sta := sta; cha := cha; loc := loc;
                     tw_size := size streamInfo |})
            | None => Ok result
            end
        | Ok _ => Ok result
        end
    end.
Proof.
  unfold ev_step. rewrite outcome_bind, outcome_lift.
  destruct (parse_nscl nscl) as [[[[net sta] cha] loc]|e]; [|done].
  cbn [mbind res_bind rbind].
  destruct (getStreamInfo self ev_time ev_time net sta cha loc) as [probe|];
    [|done].
  cbn zeta.
  destruct (compute self _ _ _ _ _ _) as [ttlist|e]; cbn.
  2: { by destruct (is_Exception e). }
  unfold resolve_anchors.
  destruct (phase_scan "startphase" _ _ _ _ _) as [st|e]; cbn.
  2: { by destruct (is_Exception e). }
  destruct (phase_scan "endphase" _ _ _ _ _) as [en|e]; cbn.
  2: { by destruct (is_Exception e). }
  destruct st as [st|], en as [en|]; try done.
  unfold append_checked.
  destruct (getStreamInfo self st en net sta cha loc); [|done].
  by destruct (max_lines self <? _)%Z.
Qed.

Lemma outcome_timewindows_tw self streams start_time end_time :
  outcome (timewindows_tw self (PyList streams) start_time end_time)
  = outcome (for_each (tw_step self start_time end_time) streams []).
Proof. unfold timewindows_tw. by rewrite outcome_bind. Qed.

Lemma outcome_ev_event self streams startphase startoffset endphase endoffset
    ev result :
  outcome (ev_event self (PyList streams) startphase startoffset
             endphase endoffset ev result)
  = '(ev_lat, ev_lon, ev_dep, ev_time) ← parse_event ev;
    outcome (for_each (ev_step self startphase startoffset endphase endoffset
                         ev_lat ev_lon ev_dep ev_time) streams result).
Proof.
  unfold ev_event. rewrite outcome_bind, outcome_lift.
  destruct (parse_event ev) as [[[[ev_lat ev_lon] ev_dep] ev_time]|e]; [|done].
  cbn [mbind res_bind rbind]. by rewrite outcome_bind.
Qed.

Lemma outcome_timewindows_ev self streams events startphase startoffset
    endphase endoffset :
  outcome (timewindows_ev self streams (PyList events) startphase startoffset
             endphase endoffset)
  = outcome (for_each (ev_event self streams startphase startoffset
                         endphase endoffset) events []).
Proof. unfold timewindows_ev. by rewrite outcome_bind. Qed.




End Properties.

(** ** Properties of the event-relative resolver *)

Section EventRelative.

Context {lib : Library}.


(** C4. For the requested phase "P" at a distance of exactly 120 degrees
    the scan takes the PKP/PKiKP branch: the time it assigns is that of the
    first arrival whose name starts with PKP or PKiKP, whatever names of the
    P family the sequence contains; the test is 120 <= delta. *)
Theorem threshold_takes_PKP_branch which delta ev_time offset ttlist :
  (delta == 120)%Q →
  phase_scan which "P" delta ev_time offset ttlist
  = Ok (anchored ev_time offset
          <$> find (fun arr => PKP_name (phase arr)) ttlist).
Proof.
  intros Hdelta. apply phase_scan_P_far.
  unfold delta_threshold. rewrite Hdelta. apply Qle_refl.
Qed.



End EventRelative.

(** ** The size cap *)


Section SizeCap.

Context {lib : Library}.






End SizeCap.

(** ** Failures of the travel-time table *)

Lemma for_each_all_skip {A S} (body : A → S → M S) xs s :
  (∀ x s, x ∈ xs → outcome (body x s) = Ok s) →
  outcome (for_each body xs s) = Ok s.
Proof.
  induction xs as [|x xs IH]; intros Hskip; [done|].
  rewrite outcome_for_each_cons, Hskip by left.
  cbn [mbind res_bind rbind]. apply IH. intros; apply Hskip. by right.
Qed.

Section OracleFailure.

Context {lib : Library}.



End OracleFailure.

(** ** The explicit resolver and the endpoint *)

Section Explicit.

Context {lib : Library}.

Lemma tw_loop_all self start_time end_time streams acc :
  Forall (fun nscl => ∃ r, tw_result_of self start_time end_time nscl r)
    streams →
  (Z.of_nat (length acc + length streams) ≤ max_lines self)%Z →
  ∃ new,
    outcome (for_each (tw_step self start_time end_time) streams acc)
      = Ok (acc ++ new)
    ∧ Forall2 (tw_result_of self start_time end_time) streams new.
Proof.
  intros Hall. revert acc.
  induction Hall as [|nscl streams [r Hr] _ IH]; intros acc Hfit.
  - exists []. by rewrite app_nil_r.
  - rewrite outcome_for_each_cons, outcome_tw_step.
    pose proof Hr as (knet & ksta & kcha & kloc & streamInfo & Hkey & Hinfo & ->).
    rewrite Hkey. cbn [mbind res_bind rbind]. rewrite Hinfo.
    rewrite outcome_append_checked.
    cbn [length] in Hfit.
    rewrite (proj2 (Z.ltb_ge _ _)) by (rewrite length_app; cbn; lia).
    cbn [mbind res_bind rbind].
    destruct (IH (acc ++ [ {| start_time := start_time; end_time := end_time;
                             net := knet; sta := ksta; cha := kcha; loc := kloc;
                             tw_size := size streamInfo |} ]))
      as (new & Hrun & Hnew).
    { rewrite length_app. cbn. lia. }
    eexists (_ :: new). split.
    + rewrite Hrun. by rewrite <- app_assoc.
    + by constructor.
Qed.

(** C8, amended. In explicit mode, for every list of streams without
    duplicates whose keys are well formed and known to the cache in the
    window of the caller, and whose length does not exceed [max_lines], the
    resolver returns one result for each stream, in the order of the
    input, each with the start and end times of the caller. *)
Theorem tw_one_result_per_stream self streams window_start window_end :
  NoDup streams →
  (∀ nscl, nscl ∈ streams →
     ∃ knet ksta kcha kloc streamInfo,
       parse_nscl nscl = Ok (knet, ksta, kcha, kloc) ∧
       getStreamInfo self window_start window_end knet ksta kcha kloc
         = Some streamInfo) →
  (Z.of_nat (length streams) ≤ max_lines self)%Z →
  ∃ result,
    outcome (timewindows_tw self (PyList streams) window_start window_end)
      = Ok result
    ∧ length result = length streams
    ∧ Forall2 (tw_result_of self window_start window_end) streams result
    ∧ Forall (fun r => start_time r = window_start
                       ∧ end_time r = window_end) result.
Proof.
  intros _ Hknown Hfit.
  destruct (tw_loop_all self window_start window_end streams [])
    as (result & Hrun & Hresult); [|done|].
  { apply Forall_forall. intros nscl Hin.
    destruct (Hknown nscl Hin) as (knet & ksta & kcha & kloc & info & ? & ?).
    eexists. by exists knet, ksta, kcha, kloc, info. }
  exists result. rewrite outcome_timewindows_tw.
  split; [done|]. split; [by rewrite (Forall2_length _ _ _ Hresult)|].
  split; [done|].
  clear Hrun Hknown Hfit.
  induction Hresult as [|nscl r streams result Hr _ IH]; constructor; [|done].
  by destruct Hr as (?&?&?&?&?&?&?&->).
Qed.

(** C9. A call of the endpoint without the parameter [streams] raises the
    client error "missing streams" at once, before the mode is chosen and
    whatever the other parameters are. *)
Theorem missing_streams_fails_first self params :
  params !! "streams" = None →
  timewindows self params = (Raise (WIClientError "missing streams"), []).
Proof.
  intros Hmissing. unfold timewindows, timewindows_mode. by rewrite Hmissing.
Qed.

End Explicit.

(** ** The choice of the mode *)

Lemma foldl_count {A} (P : A → Prop) `{!∀ x, Decision (P x)} (l : list A) n :
  foldl (fun a b => a + (if bool_decide (P b) then 1 else 0)) n l
  = n + length (filter P l).
Proof.
  revert n. induction l as [|x l IH]; intros n; cbn [foldl].
  - cbn. lia.
  - rewrite IH, filter_cons. case_bool_decide.
    + rewrite decide_True by done. cbn. lia.
    + rewrite decide_False by done. lia.
Qed.

Lemma params_count_filter (names : list string) params :
  params_count names params
  = length (filter (fun k => k ∈ names) (map_to_list params).*1).
Proof. unfold params_count. by rewrite foldl_count. Qed.

(** The keys of the dict are the names that the request supplies. *)
Lemma supplied_key (params : gmap string string) k :
  k ∈ (map_to_list params).*1 ↔ is_Some (params !! k).
Proof.
  rewrite list_elem_of_fmap. split.
  - intros ([k' v] & -> & Hkv%elem_of_map_to_list). by exists v.
  - intros [v Hv]. exists (k, v). split; [done|]. by apply elem_of_map_to_list.
Qed.

Lemma counted_keys (names : list string) (params : gmap string string) :
  NoDup (filter (fun k => k ∈ names) (map_to_list params).*1)
  ∧ ∀ k, k ∈ filter (fun k => k ∈ names) (map_to_list params).*1
         ↔ k ∈ names ∧ is_Some (params !! k).
Proof.
  split.
  - apply NoDup_filter, NoDup_fst_map_to_list.
  - intros k. by rewrite list_elem_of_filter, supplied_key.
Qed.

Lemma params_count_all (names : list string) params :
  NoDup names →
  params_count names params = length names ↔ all_supplied names params.
Proof.
  intros Hnames. rewrite params_count_filter.
  destruct (counted_keys names params) as [Hnodup Hkeys].
  assert (filter (fun k => k ∈ names) (map_to_list params).*1 ⊆+ names) as Hsub.
  { apply NoDup_submseteq; [done|]. intros k. rewrite Hkeys. tauto. }
  split.
  - intros Hlen k Hk.
    apply submseteq_length_Permutation in Hsub; [|lia].
    rewrite <- Hsub in Hk. by apply Hkeys in Hk as [_ ?].
  - intros Hall. apply Nat.le_antisymm; [by apply submseteq_length|].
    apply submseteq_length, NoDup_submseteq; [done|].
    intros k Hk. apply Hkeys. split; [done|]. by apply Hall.
Qed.

Lemma params_count_none (names : list string) params :
  params_count names params = 0 ↔ none_supplied names params.
Proof.
  rewrite params_count_filter.
  destruct (counted_keys names params) as [_ Hkeys]. split.
  - intros Hnil%nil_length_inv k Hk.
    destruct (params !! k) as [v|] eqn:Hv; [|done].
    assert (k ∈ filter (fun k => k ∈ names) (map_to_list params).*1) as Hin.
    { apply Hkeys. split; [done|]. rewrite Hv. by exists v. }
    rewrite Hnil in Hin. by apply elem_of_nil in Hin.
  - intros Hnone.
    rewrite (elem_of_nil_inv
               (filter (fun k => k ∈ names) (map_to_list params).*1)); [done|].
    intros k [Hk [v Hv]]%Hkeys. by rewrite (Hnone k Hk) in Hv.
Qed.

(** C5, amended. For a request that supplies [streams], the endpoint chooses
    the explicit mode if and only if [start] and [end] are both supplied and
    none of [events], [startphase], [startoffset], [endphase], [endoffset]
    is; it chooses the event-relative mode if and only if these five are all
    supplied and neither [start] nor [end] is; every other combination
    raises the client error "invalid set of parameters". *)
Theorem mode_selection params :
  is_Some (params !! "streams") →
  (timewindows_mode params = Ok tw
   ↔ all_supplied tw_params params ∧ none_supplied ev_params params)
  ∧
  (timewindows_mode params = Ok ev
   ↔ all_supplied ev_params params ∧ none_supplied tw_params params)
  ∧
  (¬ (all_supplied tw_params params ∧ none_supplied ev_params params) →
   ¬ (all_supplied ev_params params ∧ none_supplied tw_params params) →
   timewindows_mode params
   = Raise (WIClientError "invalid set of parameters")).
Proof.
  intros [v Hstreams]. unfold timewindows_mode. rewrite Hstreams.
  assert (NoDup tw_params) as Htw by (apply (bool_decide_unpack _); done).
  assert (NoDup ev_params) as Hev by (apply (bool_decide_unpack _); done).
  pose proof (params_count_all tw_params params Htw) as Htw_all.
  pose proof (params_count_all ev_params params Hev) as Hev_all.
  pose proof (params_count_none tw_params params) as Htw_none.
  pose proof (params_count_none ev_params params) as Hev_none.
  assert (all_supplied tw_params params → ¬ none_supplied tw_params params)
    as Hexcl.
  { intros Hall Hnone. destruct (Hall "start") as [w Hw]; [by left|].
    rewrite (Hnone "start") in Hw; [done | by left]. }
  destruct (Nat.eqb_spec (params_count tw_params params) (length tw_params));
    destruct (Nat.eqb_spec (params_count ev_params params) 0);
    destruct (Nat.eqb_spec (params_count ev_params params) (length ev_params));
    destruct (Nat.eqb_spec (params_count tw_params params) 0);
    cbn [andb]; (split; [|split]); try split; try done; tauto.
Qed.

(** ** Requests that return *)

(** A loop whose bodies return and append at most [d] results returns,
    as long as the results fit under the bound [K]. *)
Lemma for_each_returns {A T} (K : Z) (d : nat)
    (body : A → list T → M (list T)) xs :
  (∀ x acc, x ∈ xs → (Z.of_nat (length acc + d) ≤ K)%Z →
     ∃ acc', outcome (body x acc) = Ok acc'
            ∧ (length acc' ≤ length acc + d)%nat) →
  ∀ acc, (Z.of_nat (length acc + d * length xs) ≤ K)%Z →
    ∃ acc', outcome (for_each body xs acc) = Ok acc'
            ∧ (length acc' ≤ length acc + d * length xs)%nat.
Proof.
  induction xs as [|x xs IH]; intros Hbody acc Hfit.
  - exists acc. split; [done | lia].
  - cbn [length] in Hfit.
    destruct (Hbody x acc) as (acc1 & Hx & Hlen1); [by left | lia |].
    destruct (IH (fun y a Hy => Hbody y a (proj2 (elem_of_cons _ _ _) (or_intror Hy)))
                 acc1) as (acc' & Hrest & Hlen); [lia|].
    exists acc'. rewrite outcome_for_each_cons, Hx. cbn [mbind res_bind rbind].
    split; [done|]. cbn [length]. lia.
Qed.

Section Returns.

Context {lib : Library}.

(** X19. An event-relative request with well-formed events and streams and
    the phases "P" or "S" returns whenever its pairs fit under [max_lines],
    whatever the travel-time table raises, as long as [except Exception]
    intercepts it. *)
Lemma ev_request_returns self streams events startphase startoffset
    endphase endoffset :
  (∀ ev, ev ∈ events → ∃ fields, parse_event ev = Ok fields) →
  (∀ nscl, nscl ∈ streams → ∃ codes, parse_nscl nscl = Ok codes) →
  startphase = "P" ∨ startphase = "S" →
  endphase = "P" ∨ endphase = "S" →
  (∀ ev_lat ev_lon ev_dep st_lat st_lon st_alt e,
     compute self ev_lat ev_lon ev_dep st_lat st_lon st_alt = Raise e →
     is_Exception e = true) →
  (Z.of_nat (length streams * length events) ≤ max_lines self)%Z →
  ∃ result,
    outcome (timewindows_ev self (PyList streams) (PyList events)
               startphase startoffset endphase endoffset) = Ok result.
Proof.
  intros Hevents Hstreams Hsp Hep Hexc Hfit.
  rewrite outcome_timewindows_ev.
  destruct (for_each_returns (max_lines self) (length streams)
    (ev_event self (PyList streams) startphase startoffset endphase endoffset)
    events) with (acc := @nil TimeWindowResult) as (result & Hrun & _);
    [|done|by exists result].
  intros ev acc [[[[ev_lat ev_lon] ev_dep] ev_time] Hev]%Hevents Hacc.
  rewrite outcome_ev_event, Hev. cbn [mbind res_bind rbind].
  replace (length acc + length streams)
    with (length acc + 1 * length streams) in * by lia.
  apply (for_each_returns (max_lines self) 1); [|done].
  intros nscl acc1 [[[[knet ksta] kcha] kloc] Hkey]%Hstreams Hacc1.
  rewrite outcome_ev_step, Hkey. cbn [mbind res_bind rbind].
  destruct (getStreamInfo self ev_time ev_time knet ksta kcha kloc)
    as [probe|]; [|exists acc1; split; [done|lia]].
  cbn zeta.
  destruct (compute self _ _ _ _ _ _) as [ttlist|e] eqn:Hcompute;
    cbn [mbind res_bind rbind].
  2: { rewrite (Hexc _ _ _ _ _ _ _ Hcompute). exists acc1. split; [done|lia]. }
  rewrite !phase_scan_first_arrival by done. cbn [mbind res_bind rbind].
  destruct (first_arrival startphase _ ttlist) as [a_start|];
    [|exists acc1; split; [done|lia]].
  destruct (first_arrival endphase _ ttlist) as [a_end|];
    [|exists acc1; split; [done|lia]].
  cbn [fmap option_fmap option_map].
  destruct (getStreamInfo self _ _ knet ksta kcha kloc) as [streamInfo|];
    [|exists acc1; split; [done|lia]].
  rewrite outcome_append_checked.
  rewrite (proj2 (Z.ltb_ge _ _)) by (rewrite length_app; cbn [length]; lia).
  eexists. split; [done|]. rewrite length_app. cbn [length]. lia.
Qed.

End Returns.

(** ** A requested phase other than "P" and "S" *)

Section WrongPhase.

Context {lib : Library}.

(** X20. When [except Exception] intercepts [WIClientError], a request with
    a phase other than "P" and "S", and with well-formed events and streams,
    returns the empty list: the client error that the loops raise at the
    first arrival is logged and the pair is passed over. *)
Lemma wrong_phase_is_not_fatal self streams events startphase startoffset
    endphase endoffset :
  client_error_is_Exception = true →
  ¬ ((startphase = "P" ∨ startphase = "S") ∧ (endphase = "P" ∨ endphase = "S")) →
  (∀ ev, ev ∈ events → ∃ fields, parse_event ev = Ok fields) →
  (∀ nscl, nscl ∈ streams → ∃ codes, parse_nscl nscl = Ok codes) →
  outcome (timewindows_ev self (PyList streams) (PyList events)
             startphase startoffset endphase endoffset) = Ok [].
Proof.
  intros Hcaught Hwrong Hevents Hstreams.
  assert (∀ e, is_Exception e = true) as Hexc by (by intros []).
  rewrite outcome_timewindows_ev. apply for_each_all_skip.
  intros ev result [[[[ev_lat ev_lon] ev_dep] ev_time] Hev]%Hevents.
  rewrite outcome_ev_event, Hev. cbn [mbind res_bind rbind].
  apply for_each_all_skip.
  intros nscl acc [[[[knet ksta] kcha] kloc] Hkey]%Hstreams.
  rewrite outcome_ev_step, Hkey. cbn [mbind res_bind rbind].
  destruct (getStreamInfo self ev_time ev_time knet ksta kcha kloc)
    as [probe|]; [|done].
  cbn zeta.
  destruct (compute self _ _ _ _ _ _) as [ttlist|e];
    cbn [mbind res_bind rbind]; [|by rewrite Hexc].
  destruct (decide (startphase = "P" ∨ startphase = "S")) as [Hsp|Hsp].
  - rewrite (phase_scan_wrong_phase "endphase" endphase) by tauto.
    destruct (phase_scan "startphase" _ _ _ _ _) as [st|e];
      cbn [mbind res_bind rbind]; [|by rewrite Hexc].
    destruct ttlist; cbn [mbind res_bind rbind]; [by destruct st|].
    by rewrite Hexc.
  - rewrite (phase_scan_wrong_phase "startphase" startphase) by tauto.
    destruct ttlist; cbn [mbind res_bind rbind]; [|by rewrite Hexc].
    by destruct (phase_scan "endphase" _ _ _ _ _) as [[en|]|e];
      cbn [mbind res_bind rbind]; rewrite ?Hexc.
Qed.

End WrongPhase.

(** ** Worked examples *)

(** Membership in a list that is written out. *)
Ltac each_member H :=
  repeat (apply elem_of_cons in H as [-> | H]); [.. | by apply elem_of_nil in H].


(** At 240/2 degrees the scan for "P" passes over Pdiff and stops at PKP. *)
Lemma threshold_takes_PKP_branch_witness :
  (240 # 2 == 120)%Q
  ∧ phase_scan "startphase" "P" (240 # 2) 0 (-1)
      [ex_arrival "Pdiff" 900; ex_arrival "PKP" 1140; ex_arrival "SKS" 1500]
    = Ok (anchored 0 (-1)
            <$> find (fun arr => PKP_name (phase arr))
                  [ex_arrival "Pdiff" 900; ex_arrival "PKP" 1140;
                   ex_arrival "SKS" 1500]).
Proof.
  split; [reflexivity|].
  apply threshold_takes_PKP_branch. reflexivity.
Defined.

Example threshold_scan_value :
  phase_scan "startphase" "P" 120 0 (-1)
    [ex_arrival "Pdiff" 900; ex_arrival "PKP" 1140; ex_arrival "SKS" 1500]
  = Ok (Some 1080%Q).
Proof. vm_compute. reflexivity. Qed.

Example below_threshold_scan_value :
  phase_scan "startphase" "P" 119 0 (-1)
    [ex_arrival "Pdiff" 900; ex_arrival "PKP" 1140; ex_arrival "SKS" 1500]
  = Ok (Some 840%Q).
Proof. vm_compute. reflexivity. Qed.





(** Scenario 3 of the specification: the table raises for the second of
    three events; the other two events give their windows. *)
Example oracle_failure_for_one_event_of_three :
  timewindows_ev (lib := ex_library true) ex_self
    (PyList [ex_stream "APE"])
    (PyList [ex_event 10; ex_event (-1); ex_event 10]) "P" (-1) "S" 2
  = (Ok [ex_result "APE" (-40) 155; ex_result "APE" (-40) 155],
     [LogComputeException (Exception "depth out of range")]).
Proof. vm_compute. reflexivity. Qed.


(** A pair whose anchors are resolved is left out when the cache does not
    know the stream in the resolved window. *)
Example unknown_in_resolved_window :
  timewindows_ev (lib := ex_library true)
    {| max_lines := 10000;
       getStreamInfo := fun start_time end_time net sta cha loc =>
         if Qle_bool end_time 100 then Some (ex_station 1) else None;
       compute := compute ex_self |}
    (PyList [ex_stream "APE"]) (PyList [ex_event 10]) "P" (-1) "S" 2
  = (Ok [], []).
Proof. vm_compute. reflexivity. Qed.

Lemma two_streams_distinct : NoDup [ex_stream "APE"; ex_stream "FAR"].
Proof.
  apply NoDup_cons. split.
  - intros [Heq | Hin%elem_of_nil]%elem_of_cons; [discriminate | done].
  - apply NoDup_cons. split; [by intros ?%elem_of_nil | apply NoDup_nil_2].
Defined.

Lemma two_streams_known (start_time end_time : Q) nscl :
  nscl ∈ [ex_stream "APE"; ex_stream "FAR"] →
  ∃ knet ksta kcha kloc streamInfo,
    parse_nscl (lib := ex_library true) nscl = Ok (knet, ksta, kcha, kloc) ∧
    getStreamInfo ex_self start_time end_time knet ksta kcha kloc
      = Some streamInfo.
Proof.
  intros Hin. each_member Hin.
  - by exists "GE", "APE", "BHZ", "", (ex_station 1).
  - by exists "GE", "FAR", "BHZ", "", (ex_station 150).
Defined.

Lemma tw_one_result_per_stream_witness :
  NoDup [ex_stream "APE"; ex_stream "FAR"]
  ∧ (Z.of_nat (length [ex_stream "APE"; ex_stream "FAR"]) ≤ max_lines ex_self)%Z
  ∧ ∃ result,
      outcome (timewindows_tw (lib := ex_library true) ex_self
                 (PyList [ex_stream "APE"; ex_stream "FAR"]) 0 3600)
        = Ok result
      ∧ length result = length [ex_stream "APE"; ex_stream "FAR"]
      ∧ Forall2 (tw_result_of (lib := ex_library true) ex_self 0 3600)
          [ex_stream "APE"; ex_stream "FAR"] result
      ∧ Forall (fun r => start_time r = 0%Q ∧ end_time r = 3600%Q) result.
Proof.
  split; [apply two_streams_distinct|].
  split; [vm_compute; discriminate|].
  apply (tw_one_result_per_stream (lib := ex_library true) ex_self
           [ex_stream "APE"; ex_stream "FAR"] 0 3600).
  - apply two_streams_distinct.
  - apply two_streams_known.
  - vm_compute; discriminate.
Defined.

Example tw_two_streams_value :
  timewindows_tw (lib := ex_library true) ex_self
    (PyList [ex_stream "APE"; ex_stream "FAR"]) 0 3600
  = (Ok [ex_result "APE" 0 3600; ex_result "FAR" 0 3600], []).
Proof. vm_compute. reflexivity. Qed.

(** C8 as stated fails where the streams are more than [max_lines]: two
    distinct, well-formed and known streams under a cap of one line give
    the request-too-large error, not two results. *)
Lemma tw_two_streams_over_the_cap :
  NoDup [ex_stream "APE"; ex_stream "FAR"]
  ∧ (∀ nscl, nscl ∈ [ex_stream "APE"; ex_stream "FAR"] →
       ∃ knet ksta kcha kloc streamInfo,
         parse_nscl (lib := ex_library true) nscl
           = Ok (knet, ksta, kcha, kloc) ∧
         getStreamInfo (with_max_lines 1 ex_self) 0 3600 knet ksta kcha kloc
           = Some streamInfo)
  ∧ timewindows_tw (lib := ex_library true) (with_max_lines 1 ex_self)
      (PyList [ex_stream "APE"; ex_stream "FAR"]) 0 3600
    = (Raise too_large, []).
Proof.
  split; [apply two_streams_distinct|].
  split; [apply two_streams_known|].
  vm_compute. reflexivity.
Qed.

Lemma mode_selection_witness :
  is_Some (ex_params_tw !! "streams")
  ∧ (timewindows_mode ex_params_tw = Ok tw
     ↔ all_supplied tw_params ex_params_tw
       ∧ none_supplied ev_params ex_params_tw).
Proof.
  split; [by eexists|].
  apply (mode_selection ex_params_tw). by eexists.
Defined.

Example explicit_mode_is_chosen : timewindows_mode ex_params_tw = Ok tw.
Proof. vm_compute. reflexivity. Qed.

Example event_mode_is_chosen :
  timewindows_mode
    {[ "streams" := "[]"; "events" := "[]"; "startphase" := "P";
       "startoffset" := "-1"; "endphase" := "S"; "endoffset" := "2" ]}
  = Ok ev.
Proof. vm_compute. reflexivity. Qed.

Example mixed_parameters_are_refused :
  timewindows_mode (<["events" := "[]"]> ex_params_tw)
  = Raise (WIClientError "invalid set of parameters").
Proof. vm_compute. reflexivity. Qed.

(** C5 as stated fails where [streams] is not supplied: [start] and [end]
    are supplied and none of the five parameters of the event-relative mode
    is, but the explicit mode is not chosen, and the error is not "invalid
    set of parameters" either. *)
Lemma explicit_parameters_without_streams :
  all_supplied tw_params ex_params_without_streams
  ∧ none_supplied ev_params ex_params_without_streams
  ∧ timewindows_mode ex_params_without_streams
    = Raise (WIClientError "missing streams").
Proof.
  split; [|split].
  - intros k Hk. each_member Hk; by eexists.
  - intros k Hk. by each_member Hk.
  - vm_compute. reflexivity.
Qed.

Lemma missing_streams_fails_first_witness :
  ex_params_without_streams !! "streams" = None
  ∧ timewindows (lib := ex_library true) ex_self ex_params_without_streams
    = (Raise (WIClientError "missing streams"), []).
Proof.
  split; [vm_compute; reflexivity|].
  apply missing_streams_fails_first. vm_compute; reflexivity.
Defined.

(** C2 does not hold of the code. The start phase "X" is neither "P" nor
    "S"; events and streams are well formed, the station is known and the
    table returns arrivals. The first loop raises the client error "Wrong
    startphase received", which [except Exception] intercepts: the error is
    logged, the pair is passed over and the request returns an empty list
    instead of failing. *)
Example wrong_startphase_is_swallowed :
  timewindows_ev (lib := ex_library true) ex_self
    (PyList [ex_stream "APE"]) (PyList [ex_event 10]) "X" (-1) "S" 2
  = (Ok [],
     [LogException (WIClientError ("Wrong startphase" ++ only_P_and_S))]).
Proof. vm_compute. reflexivity. Qed.

(** The same for the end phase. *)
Example wrong_endphase_is_swallowed :
  timewindows_ev (lib := ex_library true) ex_self
    (PyList [ex_stream "APE"]) (PyList [ex_event 10]) "P" (-1) "Q" 2
  = (Ok [],
     [LogException (WIClientError ("Wrong endphase" ++ only_P_and_S))]).
Proof. vm_compute. reflexivity. Qed.

(** Whatever the base class of [WIClientError], the phase is not looked at
    when the cache does not know the stream at the origin time: the loops
    over the arrivals are not reached. *)
Example wrong_phase_is_not_looked_at (client_error_is_Exception : bool) :
  timewindows_ev (lib := ex_library client_error_is_Exception) ex_self
    (PyList [ex_stream "NONE"]) (PyList [ex_event 10]) "X" (-1) "S" 2
  = (Ok [], []).
Proof. by destruct client_error_is_Exception. Qed.

(** Scenario 1 of the specification. *)
Example scenario_1 :
  timewindows_ev (lib := ex_library true) ex_self
    (PyList [ex_stream "APE"]) (PyList [ex_event 10]) "P" (-1) "S" 2
  = (Ok [ex_result "APE" (0 + 20 - 60) (0 + 35 + 120)], []).
Proof. vm_compute. reflexivity. Qed.

(** Scenario 2 of the specification: at 150 degrees the start is anchored
    on PKP (1140 s), not on Pdiff (900 s). *)
Example scenario_2 :
  timewindows_ev (lib := ex_library true) ex_self
    (PyList [ex_stream "FAR"]) (PyList [ex_event 10]) "P" 0 "P" 1
  = (Ok [ex_result "FAR" 1140 1200], []).
Proof. vm_compute. reflexivity. Qed.

(** Scenario 4 of the specification: a key of three components. *)
Example scenario_4 :
  outcome (timewindows_tw (lib := ex_library true) ex_self
             (PyList [ex_stream "APE"; PyList [PyStr "GE"; PyStr "APE"; PyStr "BHZ"]])
             0 3600)
  = Raise (WIClientError "invalid stream: <value>").
Proof. vm_compute. reflexivity. Qed.

(** ** Requests as traces *)

Lemma replay_nil N acc : replay N acc ([], None) = Ok acc.
Proof. unfold replay. cbn. by rewrite app_nil_r. Qed.

Lemma replay_raise N acc e : replay N acc ([], Some e) = Raise e.
Proof. done. Qed.

Lemma replay_one N acc r :
  replay N acc ([r], None)
  = if (N <? Z.of_nat (length (acc ++ [r])))%Z
    then Raise too_large else Ok (acc ++ [r]).
Proof. done. Qed.

(** A trace that raises after its results stops the run. *)
Lemma replay_stop N acc l e :
  ∃ e', replay N acc (l, Some e) = Raise e'.
Proof.
  unfold replay. cbn [fst snd].
  destruct (nonempty l && _); by eexists.
Qed.

(** Replaying a trace that does not raise, and another after it, is
    replaying both at once. *)
Lemma replay_app N acc l1 l2 oe :
  replay N acc (l1, None) ≫= (fun acc' => replay N acc' (l2, oe))
  = replay N acc (l1 ++ l2, oe).
Proof.
  destruct l1 as [|r1 l1].
  - rewrite replay_nil. done.
  - unfold replay at 2 3. cbn [fst snd nonempty andb app].
    destruct (Z.ltb_spec N (Z.of_nat (length (acc ++ r1 :: l1)))) as [Hover|Hfit].
    + cbn [mbind res_bind rbind].
      rewrite (proj2 (Z.ltb_lt _ _)); [done|].
      rewrite !length_app in *. cbn [length] in *. rewrite length_app. lia.
    + cbn [mbind res_bind rbind]. unfold replay. cbn [fst snd].
      rewrite <- app_assoc, <- app_comm_cons.
      destruct l2 as [|r2 l2]; [|done].
      cbn [nonempty andb]. rewrite app_nil_r.
      by rewrite (proj2 (Z.ltb_ge _ _)).
Qed.

(** A loop of bodies that have traces of at most [d] results has a trace. *)
Lemma for_each_traced {A} (d : nat)
    (body : Z → A → list TimeWindowResult → M (list TimeWindowResult)) xs :
  (∀ x, x ∈ xs →
     ∃ tr, (length (fst tr) ≤ d)%nat ∧
       ∀ N acc, outcome (body N x acc) = replay N acc tr) →
  ∃ tr, (length (fst tr) ≤ d * length xs)%nat ∧
    ∀ N acc, outcome (for_each (body N) xs acc) = replay N acc tr.
Proof.
  induction xs as [|x xs IH]; intros Hbody.
  - exists ([], None). split; [cbn; lia|]. intros N acc. by rewrite replay_nil.
  - destruct (Hbody x) as ([l1 oe1] & Hlen1 & H1); [by left|].
    destruct IH as ([l2 oe2] & Hlen2 & H2).
    { intros y Hy. apply Hbody. by right. }
    cbn [fst length] in *.
    destruct oe1 as [e|].
    + exists (l1, Some e). split; [cbn [fst]; nia|]. intros N acc.
      rewrite outcome_for_each_cons, H1.
      by destruct (replay_stop N acc l1 e) as [e' ->].
    + exists (l1 ++ l2, oe2). split; [cbn [fst]; rewrite length_app; nia|].
      intros N acc. rewrite outcome_for_each_cons, H1, <- replay_app.
      destruct (replay N acc (l1, None)) as [acc'|e]; [|done].
      cbn [mbind res_bind rbind]. apply H2.
Qed.

Section Traces.

Context {lib : Library}.

Lemma tw_step_traced g c start_time end_time nscl :
  ∃ tr, (length (fst tr) ≤ 1)%nat ∧
    ∀ N acc,
      outcome (tw_step {| max_lines := N; getStreamInfo := g; compute := c |}
                 start_time end_time nscl acc) = replay N acc tr.
Proof.
  destruct (parse_nscl nscl) as [[[[knet ksta] kcha] kloc]|e] eqn:Hkey.
  - destruct (g start_time end_time knet ksta kcha kloc) as [info|] eqn:Hinfo.
    + eexists ([_], None). split; [done|]. intros N acc.
      rewrite outcome_tw_step, Hkey. cbn [mbind res_bind rbind getStreamInfo].
      rewrite Hinfo, outcome_append_checked. apply eq_sym, replay_one.
    + exists ([], None). split; [cbn; lia|]. intros N acc.
      rewrite outcome_tw_step, Hkey. cbn [mbind res_bind rbind getStreamInfo].
      by rewrite Hinfo, replay_nil.
  - exists ([], Some e). split; [cbn; lia|]. intros N acc.
    by rewrite outcome_tw_step, Hkey.
Qed.

Lemma ev_step_traced g c startphase startoffset endphase endoffset
    ev_lat ev_lon ev_dep ev_time nscl :
  ∃ tr, (length (fst tr) ≤ 1)%nat ∧
    ∀ N acc,
      outcome (ev_step {| max_lines := N; getStreamInfo := g; compute := c |}
                 startphase startoffset endphase endoffset
                 ev_lat ev_lon ev_dep ev_time nscl acc) = replay N acc tr.
Proof.
  assert (∀ N acc, replay N acc ([], None) = Ok acc) as Hnil
    by apply replay_nil.
  destruct (parse_nscl nscl) as [[[[knet ksta] kcha] kloc]|e] eqn:Hkey.
  2: { exists ([], Some e). split; [cbn; lia|]. intros N acc.
       by rewrite outcome_ev_step, Hkey. }
  destruct (g ev_time ev_time knet ksta kcha kloc) as [probe|] eqn:Hprobe.
  2: { exists ([], None). split; [cbn; lia|]. intros N acc.
       rewrite outcome_ev_step, Hkey.
       cbn [mbind res_bind rbind getStreamInfo]. by rewrite Hprobe, Hnil. }
  destruct (ttlist ← c ev_lat ev_lon ev_dep
                       (latitude probe) (longitude probe) (elevation probe);
            st ← phase_scan "startphase" startphase
                   (delazi ev_lat ev_lon (latitude probe) (longitude probe))
                   ev_time startoffset ttlist;
            en ← phase_scan "endphase" endphase
                   (delazi ev_lat ev_lon (latitude probe) (longitude probe))
                   ev_time endoffset ttlist;
            Ok (st, en)) as [[st en]|e] eqn:Hanchors.
  2: { destruct (is_Exception e) eqn:He.
       - exists ([], None). split; [cbn; lia|]. intros N acc.
         rewrite outcome_ev_step, Hkey.
         cbn [mbind res_bind rbind getStreamInfo compute].
         rewrite Hprobe. cbn zeta. by rewrite Hanchors, He, Hnil.
       - exists ([], Some e). split; [cbn; lia|]. intros N acc.
         rewrite outcome_ev_step, Hkey.
         cbn [mbind res_bind rbind getStreamInfo compute].
         rewrite Hprobe. cbn zeta. by rewrite Hanchors, He. }
  destruct st as [st|], en as [en|];
    try (exists ([], None); split; [cbn; lia|]; intros N acc;
         rewrite outcome_ev_step, Hkey;
         cbn [mbind res_bind rbind getStreamInfo compute];
         rewrite Hprobe; cbn zeta; by rewrite Hanchors, Hnil).
  destruct (g st en knet ksta kcha kloc) as [info|] eqn:Hinfo.
  - eexists ([_], None). split; [done|]. intros N acc.
    rewrite outcome_ev_step, Hkey.
    cbn [mbind res_bind rbind getStreamInfo compute].
    rewrite Hprobe. cbn zeta. rewrite Hanchors, Hinfo, outcome_append_checked.
    apply eq_sym, replay_one.
  - exists ([], None). split; [cbn; lia|]. intros N acc.
    rewrite outcome_ev_step, Hkey.
    cbn [mbind res_bind rbind getStreamInfo compute].
    rewrite Hprobe. cbn zeta. by rewrite Hanchors, Hinfo, Hnil.
Qed.

Lemma tw_request_traced g c streams start_time end_time :
  ∃ tr, (length (fst tr) ≤ length streams)%nat ∧
    ∀ N acc,
      outcome (for_each
                 (tw_step {| max_lines := N; getStreamInfo := g; compute := c |}
                    start_time end_time) streams acc) = replay N acc tr.
Proof.
  destruct (for_each_traced 1
    (fun N => tw_step {| max_lines := N; getStreamInfo := g; compute := c |}
                start_time end_time) streams) as (tr & Hlen & Htr).
  - intros nscl _. apply tw_step_traced.
  - exists tr. split; [lia | done].
Qed.

Lemma ev_event_traced g c streams startphase startoffset endphase endoffset ev :
  ∃ tr, (length (fst tr) ≤ length streams)%nat ∧
    ∀ N acc,
      outcome (ev_event {| max_lines := N; getStreamInfo := g; compute := c |}
                 (PyList streams) startphase startoffset endphase endoffset
                 ev acc) = replay N acc tr.
Proof.
  destruct (parse_event ev) as [[[[ev_lat ev_lon] ev_dep] ev_time]|e] eqn:Hev.
  - destruct (for_each_traced 1
      (fun N => ev_step {| max_lines := N; getStreamInfo := g; compute := c |}
                  startphase startoffset endphase endoffset
                  ev_lat ev_lon ev_dep ev_time) streams) as (tr & Hlen & Htr).
    { intros nscl _. apply ev_step_traced. }
    exists tr. split; [lia|]. intros N acc.
    rewrite outcome_ev_event, Hev. cbn [mbind res_bind rbind]. apply Htr.
  - exists ([], Some e). split; [cbn; lia|]. intros N acc.
    by rewrite outcome_ev_event, Hev.
Qed.

Lemma ev_request_traced g c streams events startphase startoffset
    endphase endoffset :
  ∃ tr, (length (fst tr) ≤ length streams * length events)%nat ∧
    ∀ N acc,
      outcome (for_each
                 (ev_event {| max_lines := N; getStreamInfo := g; compute := c |}
                    (PyList streams) startphase startoffset endphase endoffset)
                 events acc) = replay N acc tr.
Proof.
  apply (for_each_traced (length streams)
    (fun N => ev_event {| max_lines := N; getStreamInfo := g; compute := c |}
                (PyList streams) startphase startoffset endphase endoffset)).
  intros ev _. apply ev_event_traced.
Qed.

End Traces.

Lemma replay_ok_inv N acc tr result :
  replay N acc tr = Ok result →
  snd tr = None ∧ result = acc ++ fst tr
  ∧ (fst tr = [] ∨ (Z.of_nat (length result) ≤ N)%Z).
Proof.
  unfold replay. destruct tr as [l oe]. cbn [fst snd].
  destruct l as [|r l].
  - cbn [nonempty andb]. destruct oe; [done|]. intros [= <-]. by auto.
  - cbn [nonempty andb].
    destruct (Z.ltb_spec N (Z.of_nat (length (acc ++ r :: l)))); [done|].
    destruct oe; [done|]. intros [= <-]. by auto.
Qed.

Lemma replay_ok_intro N acc l :
  l = [] ∨ (Z.of_nat (length (acc ++ l)) ≤ N)%Z →
  replay N acc (l, None) = Ok (acc ++ l).
Proof.
  unfold replay. cbn [fst snd]. intros [-> | Hfit]; [done|].
  by rewrite (proj2 (Z.ltb_ge _ _)), andb_false_r.
Qed.

(** Splitting a run in two, in terms of the traces of the parts. *)
Lemma replay_split N tr1 tr2 result :
  replay N [] tr1 ≫= (fun acc => replay N acc tr2) = Ok result
  ↔ ∃ r1 r2, result = r1 ++ r2 ∧ replay N [] tr1 = Ok r1
      ∧ replay N [] tr2 = Ok r2
      ∧ (result = [] ∨ (Z.of_nat (length result) ≤ N)%Z).
Proof.
  split.
  - destruct (replay N [] tr1) as [r1|e] eqn:H1; [|done].
    cbn [mbind res_bind rbind]. intros H2.
    apply replay_ok_inv in H1 as (Hoe1 & Hr1 & Hfit1).
    apply replay_ok_inv in H2 as (Hoe2 & -> & Hfit2).
    destruct tr2 as [l2 oe2]. cbn [fst snd] in *. subst oe2.
    exists r1, l2. split; [done|]. split; [done|]. split.
    + apply (replay_ok_intro N [] l2).
      destruct Hfit2 as [-> | Hfit2]; [by left|].
      right. rewrite length_app in Hfit2. cbn [app]. lia.
    + destruct Hfit2 as [-> | Hfit2]; [|by right].
      rewrite app_nil_r. rewrite app_nil_l in Hr1.
      destruct Hfit1 as [Hnil | Hfit1]; [left; congruence | by right].
  - intros (r1 & r2 & -> & H1 & H2 & Hfit). rewrite H1.
    cbn [mbind res_bind rbind].
    apply replay_ok_inv in H2 as (Hoe2 & Hr2 & _).
    destruct tr2 as [l2 oe2]. cbn [fst snd app] in *. subst oe2 r2.
    apply replay_ok_intro.
    destruct Hfit as [Hnil | Hfit]; [|by right].
    left. by apply app_eq_nil in Hnil as [_ ?].
Qed.

Section Requests.

Context {lib : Library}.

(** X1. A request that returns never returns more than [max_lines]
    results, in either mode. (Under a negative [max_lines] it can only
    return the empty list.) *)
Theorem output_within_max_lines self :
  (∀ streams start_time end_time result,
     outcome (timewindows_tw self (PyList streams) start_time end_time)
       = Ok result →
     result = [] ∨ (Z.of_nat (length result) ≤ max_lines self)%Z)
  ∧
  (∀ streams events startphase startoffset endphase endoffset result,
     outcome (timewindows_ev self (PyList streams) (PyList events)
                startphase startoffset endphase endoffset) = Ok result →
     result = [] ∨ (Z.of_nat (length result) ≤ max_lines self)%Z).
Proof.
  destruct self as [N g c]. cbn [max_lines]. split.
  - intros streams start_time end_time result.
    rewrite outcome_timewindows_tw.
    destruct (tw_request_traced g c streams start_time end_time)
      as (tr & _ & ->).
    intros (_ & -> & Hfit)%replay_ok_inv. done.
  - intros streams events startphase startoffset endphase endoffset result.
    rewrite outcome_timewindows_ev.
    destruct (ev_request_traced g c streams events startphase startoffset
                endphase endoffset) as (tr & _ & ->).
    intros (_ & -> & Hfit)%replay_ok_inv. done.
Qed.

(** X2. The number of results is at most the number of streams in explicit
    mode, and at most the number of pairs of an event and a stream in
    event-relative mode. *)
Theorem output_at_most_one_per_pair self :
  (∀ streams start_time end_time result,
     outcome (timewindows_tw self (PyList streams) start_time end_time)
       = Ok result →
     (length result ≤ length streams)%nat)
  ∧
  (∀ streams events startphase startoffset endphase endoffset result,
     outcome (timewindows_ev self (PyList streams) (PyList events)
                startphase startoffset endphase endoffset) = Ok result →
     (length result ≤ length streams * length events)%nat).
Proof.
  destruct self as [N g c]. split.
  - intros streams start_time end_time result.
    rewrite outcome_timewindows_tw.
    destruct (tw_request_traced g c streams start_time end_time)
      as (tr & Hlen & ->).
    by intros (_ & -> & _)%replay_ok_inv.
  - intros streams events startphase startoffset endphase endoffset result.
    rewrite outcome_timewindows_ev.
    destruct (ev_request_traced g c streams events startphase startoffset
                endphase endoffset) as (tr & Hlen & ->).
    by intros (_ & -> & _)%replay_ok_inv.
Qed.

(** X3. Raising the cap does not change a request that returns: under a
    larger [max_lines] it returns the same results, in either mode. *)
Theorem larger_cap_same_results self (M : Z) :
  (max_lines self ≤ M)%Z →
  (∀ streams start_time end_time result,
     outcome (timewindows_tw self (PyList streams) start_time end_time)
       = Ok result →
     outcome (timewindows_tw (with_max_lines M self) (PyList streams)
                start_time end_time) = Ok result)
  ∧
  (∀ streams events startphase startoffset endphase endoffset result,
     outcome (timewindows_ev self (PyList streams) (PyList events)
                startphase startoffset endphase endoffset) = Ok result →
     outcome (timewindows_ev (with_max_lines M self) (PyList streams)
                (PyList events) startphase startoffset endphase endoffset)
     = Ok result).
Proof.
  destruct self as [N g c]. unfold with_max_lines.
  cbn [max_lines getStreamInfo compute]. intros HM. split.
  - intros streams start_time end_time result.
    rewrite !outcome_timewindows_tw.
    destruct (tw_request_traced g c streams start_time end_time)
      as ([l oe] & _ & Htr).
    rewrite !Htr. intros (Hoe & -> & Hfit)%replay_ok_inv.
    cbn [fst snd] in *. subst oe. apply replay_ok_intro.
    destruct Hfit as [? | ?]; [by left | right; lia].
  - intros streams events startphase startoffset endphase endoffset result.
    rewrite !outcome_timewindows_ev.
    destruct (ev_request_traced g c streams events startphase startoffset
                endphase endoffset) as ([l oe] & _ & Htr).
    rewrite !Htr. intros (Hoe & -> & Hfit)%replay_ok_inv.
    cbn [fst snd] in *. subst oe. apply replay_ok_intro.
    destruct Hfit as [? | ?]; [by left | right; lia].
Qed.

(** X4. Requests can be split and joined. An explicit request for the
    streams [s1 ++ s2] returns exactly when the requests for [s1] and for
    [s2] return and their results together fit under [max_lines], and then
    its results are those of [s1] followed by those of [s2]. The same holds
    in event-relative mode for the events [e1 ++ e2]: the results are
    grouped by event, in the order of the events. *)
Theorem requests_split_and_join self :
  (∀ s1 s2 start_time end_time result,
     outcome (timewindows_tw self (PyList (s1 ++ s2)) start_time end_time)
       = Ok result
     ↔ ∃ r1 r2, result = r1 ++ r2
         ∧ outcome (timewindows_tw self (PyList s1) start_time end_time) = Ok r1
         ∧ outcome (timewindows_tw self (PyList s2) start_time end_time) = Ok r2
         ∧ (result = [] ∨ (Z.of_nat (length result) ≤ max_lines self)%Z))
  ∧
  (∀ streams e1 e2 startphase startoffset endphase endoffset result,
     outcome (timewindows_ev self (PyList streams) (PyList (e1 ++ e2))
                startphase startoffset endphase endoffset) = Ok result
     ↔ ∃ r1 r2, result = r1 ++ r2
         ∧ outcome (timewindows_ev self (PyList streams) (PyList e1)
                      startphase startoffset endphase endoffset) = Ok r1
         ∧ outcome (timewindows_ev self (PyList streams) (PyList e2)
                      startphase startoffset endphase endoffset) = Ok r2
         ∧ (result = [] ∨ (Z.of_nat (length result) ≤ max_lines self)%Z)).
Proof.
  destruct self as [N g c]. cbn [max_lines]. split.
  - intros s1 s2 start_time end_time result.
    rewrite !outcome_timewindows_tw, outcome_for_each_app.
    destruct (tw_request_traced g c s1 start_time end_time) as (tr1 & _ & H1).
    destruct (tw_request_traced g c s2 start_time end_time) as (tr2 & _ & H2).
    rewrite !H1, H2.
    rewrite <- (replay_split N tr1 tr2 result).
    destruct (replay N [] tr1); [|done]. cbn [mbind res_bind rbind].
    by rewrite H2.
  - intros streams e1 e2 startphase startoffset endphase endoffset result.
    rewrite !outcome_timewindows_ev, outcome_for_each_app.
    destruct (ev_request_traced g c streams e1 startphase startoffset
                endphase endoffset) as (tr1 & _ & H1).
    destruct (ev_request_traced g c streams e2 startphase startoffset
                endphase endoffset) as (tr2 & _ & H2).
    rewrite !H1, H2.
    rewrite <- (replay_split N tr1 tr2 result).
    destruct (replay N [] tr1); [|done]. cbn [mbind res_bind rbind].
    by rewrite H2.
Qed.

End Requests.

(** ** The explicit resolver, completely *)

Section ExplicitSpecification.

Context {lib : Library}.

Lemma tw_result_of_unique self start_time end_time nscl r r' :
  tw_result_of self start_time end_time nscl r →
  tw_result_of self start_time end_time nscl r' →
  r = r'.
Proof.
  intros (?&?&?&?&?&?&?&->) (?&?&?&?&?&?&?&->). by same_lhs.
Qed.

Lemma tw_loop_specification self start_time end_time streams acc acc' :
  outcome (for_each (tw_step self start_time end_time) streams acc) = Ok acc'
  ↔ Forall (fun nscl => ∃ codes, parse_nscl nscl = Ok codes) streams
    ∧ ∃ new, acc' = acc ++ new
        ∧ Forall2 (tw_result_of self start_time end_time)
            (filter (fun nscl => tw_known self start_time end_time nscl = true)
               streams) new
        ∧ (new = [] ∨ (Z.of_nat (length (acc ++ new)) ≤ max_lines self)%Z).
Proof.
  revert acc acc'. induction streams as [|nscl streams IH]; intros acc acc'.
  - cbn. split.
    + intros [= <-]. split; [done|]. exists []. rewrite app_nil_r.
      split; [done|]. split; [constructor | by left].
    + intros (_ & new & -> & Hnew & _). apply Forall2_nil_inv_l in Hnew as ->.
      by rewrite app_nil_r.
  - rewrite outcome_for_each_cons, outcome_tw_step, Forall_cons, filter_cons.
    destruct (parse_nscl nscl) as [[[[knet ksta] kcha] kloc]|e] eqn:Hkey.
    2: { cbn [mbind res_bind rbind]. split; [done|]. by intros [[[codes ?] _] _]. }
    cbn [mbind res_bind rbind].
    destruct (getStreamInfo self start_time end_time knet ksta kcha kloc)
      as [info|] eqn:Hinfo.
    + rewrite decide_True by (unfold tw_known; by rewrite Hkey, Hinfo).
      rewrite outcome_append_checked.
      set (r := {| start_time := start_time; end_time := end_time;
                   net := knet; sta := ksta; cha := kcha; loc := kloc;
                   tw_size := size info |}).
      assert (tw_result_of self start_time end_time nscl r) as Hr.
      { by exists knet, ksta, kcha, kloc, info. }
      destruct (Z.ltb_spec (max_lines self) (Z.of_nat (length (acc ++ [r]))))
        as [Hover | Hfit]; cbn [mbind res_bind rbind].
      * split; [done|]. intros (_ & new & -> & Hnew & Hcap).
        apply Forall2_cons_inv_l in Hnew as (r' & new' & _ & _ & ->).
        destruct Hcap as [? | Hcap]; [done|].
        rewrite !length_app in *. cbn [length] in *. lia.
      * rewrite IH. split.
        -- intros (Hall & new & -> & Hnew & Hcap).
           split; [split; [by eexists | done]|].
           exists (r :: new). rewrite <- app_assoc. split; [done|].
           split; [by constructor|]. right.
           destruct Hcap as [-> | Hcap]; [done|]. by rewrite <- app_assoc in Hcap.
        -- intros ([_ Hall] & new & -> & Hnew & Hcap). split; [done|].
           apply Forall2_cons_inv_l in Hnew as (r' & new' & Hr' & Hnew' & ->).
           assert (r' = r) as -> by by eapply tw_result_of_unique.
           exists new'. rewrite <- app_assoc. split; [done|]. split; [done|].
           destruct Hcap as [? | Hcap]; [done|]. by right.
    + rewrite decide_False by (unfold tw_known; by rewrite Hkey, Hinfo).
      cbn [mbind res_bind rbind]. rewrite IH. split.
      * intros (Hall & Hnew). split; [split; [by eexists | done] | done].
      * by intros ([_ Hall] & Hnew).
Qed.

(** X5. The explicit resolver returns exactly when every key of the
    request is well formed and the streams that the cache knows in the
    window fit under [max_lines]; its results are then those of the known
    streams, one each and in the order of the request, and a stream that the
    cache does not know leaves no trace. *)
Theorem explicit_request_specification self streams window_start window_end
    result :
  outcome (timewindows_tw self (PyList streams) window_start window_end)
    = Ok result
  ↔ Forall (fun nscl => ∃ codes, parse_nscl nscl = Ok codes) streams
    ∧ Forall2 (tw_result_of self window_start window_end)
        (filter (fun nscl => tw_known self window_start window_end nscl = true)
           streams) result
    ∧ (result = [] ∨ (Z.of_nat (length result) ≤ max_lines self)%Z).
Proof.
  rewrite outcome_timewindows_tw, tw_loop_specification. split.
  - intros (Hall & new & -> & Hnew & Hcap). done.
  - intros (Hall & Hnew & Hcap). split; [done|]. by exists result.
Qed.

(** X6. A malformed key aborts the explicit request with the exception of
    the key, once the keys before it have been processed. *)
Theorem tw_malformed_key_aborts self s1 bad s2 start_time end_time r1 e :
  outcome (timewindows_tw self (PyList s1) start_time end_time) = Ok r1 →
  parse_nscl bad = Raise e →
  outcome (timewindows_tw self (PyList (s1 ++ bad :: s2)) start_time end_time)
  = Raise e.
Proof.
  rewrite !outcome_timewindows_tw, outcome_for_each_app. intros -> Hbad.
  cbn [mbind res_bind rbind].
  by rewrite outcome_for_each_cons, outcome_tw_step, Hbad.
Qed.

(** X7. In event-relative mode a malformed event aborts the request with
    the exception of the event, once the events before it have been
    processed; so does a malformed key while the first event is processed. *)
Theorem ev_malformed_input_aborts self streams startphase startoffset
    endphase endoffset :
  (∀ e1 bad e2 r1 e,
     outcome (timewindows_ev self (PyList streams) (PyList e1)
                startphase startoffset endphase endoffset) = Ok r1 →
     parse_event bad = Raise e →
     outcome (timewindows_ev self (PyList streams) (PyList (e1 ++ bad :: e2))
                startphase startoffset endphase endoffset) = Raise e)
  ∧
  (∀ s1 bad s2 ev rest fields r1 e,
     streams = s1 ++ bad :: s2 →
     parse_event ev = Ok fields →
     outcome (timewindows_ev self (PyList s1) (PyList [ev])
                startphase startoffset endphase endoffset) = Ok r1 →
     parse_nscl bad = Raise e →
     outcome (timewindows_ev self (PyList streams) (PyList (ev :: rest))
                startphase startoffset endphase endoffset) = Raise e).
Proof.
  split.
  - intros e1 bad e2 r1 e. rewrite !outcome_timewindows_ev, outcome_for_each_app.
    intros -> Hbad. cbn [mbind res_bind rbind].
    by rewrite outcome_for_each_cons, outcome_ev_event, Hbad.
  - intros s1 bad s2 ev rest [[[ev_lat ev_lon] ev_dep] ev_time] r1 e -> Hev.
    rewrite !outcome_timewindows_ev, !outcome_for_each_cons, !outcome_ev_event.
    rewrite Hev. cbn [mbind res_bind rbind for_each outcome fst ret].
    rewrite outcome_for_each_app.
    destruct (outcome (for_each _ s1 [])) as [acc|e']; [|done].
    cbn [mbind res_bind rbind]. intros _ Hbad.
    by rewrite outcome_for_each_cons, outcome_ev_step, Hbad.
Qed.

End ExplicitSpecification.

(** ** Keys, events and phases *)

Section KeysAndPhases.

Context {lib : Library}.

(** X8. A key or an event that is accepted has exactly four components.
    A value of another length, or without a length, is refused with the
    client error that names it. *)
Theorem keys_and_events_have_four_components (v : pyval) :
  (∀ codes, parse_nscl v = Ok codes → py_len v = Ok 4%nat)
  ∧ (∀ fields, parse_event v = Ok fields → py_len v = Ok 4%nat)
  ∧ (∀ s, py_len v ≠ Ok 4%nat → py_str v = Some s →
       parse_nscl v = Raise (WIClientError ("invalid stream: " ++ s))
       ∧ parse_event v = Raise (WIClientError ("invalid event: " ++ s))).
Proof.
  unfold parse_nscl, parse_event, raise_invalid, str.
  destruct (py_len v) as [n|e] eqn:Hlen.
  - cbn [mbind res_bind rbind].
    destruct (Nat.eqb_spec n 4) as [-> | Hn]; cbn [negb].
    + split; [done|]. split; [done|]. intros s Hlen4. by destruct Hlen4.
    + split; [|split].
      * intros codes. by destruct (py_str v).
      * intros fields. by destruct (py_str v).
      * intros s _ ->. done.
  - assert (e = TypeError) as -> by (destruct v; cbn in Hlen; congruence).
    cbn [mbind res_bind rbind except_type_value].
    split; [|split].
    + intros codes. by destruct (py_str v).
    + intros fields. by destruct (py_str v).
    + intros s _ ->. done.
Qed.


(** X10. For the requested phase "S" the distance plays no part: the scan
    gives the same anchor at every distance. *)
Theorem S_scan_ignores_distance which delta delta' ev_time offset ttlist :
  phase_scan which "S" delta ev_time offset ttlist
  = phase_scan which "S" delta' ev_time offset ttlist.
Proof. by rewrite !phase_scan_S. Qed.

Lemma prefix_first_char a s1 b s2 :
  a ≠ b → String.prefix (String a s1) (String b s2) = false.
Proof. intros Hab. cbn. by destruct (Ascii.ascii_dec a b). Qed.

(** X11. The three classes of arrival names are disjoint: a name that
    [__isphase] accepts for "P" is not accepted for "S" and does not start
    with PKP or PKiKP, and a name accepted for "S" does not start with PKP
    or PKiKP either. *)
Theorem phase_classes_are_disjoint (name : string) :
  (isphase name "P" = Ok true →
     isphase name "S" = Ok false ∧ PKP_name name = false)
  ∧ (isphase name "S" = Ok true → PKP_name name = false).
Proof.
  rewrite isphase_P, isphase_S. split.
  - intros [= Hin%bool_decide_eq_true]. unfold P_family in Hin.
    repeat (apply elem_of_cons in Hin as [-> | Hin]); try by vm_compute.
    by apply elem_of_nil in Hin.
  - intros [= [Hin%bool_decide_eq_true | Hsks]%orb_true_iff].
    + unfold S_family in Hin.
      repeat (apply elem_of_cons in Hin as [-> | Hin]); try by vm_compute.
      by apply elem_of_nil in Hin.
    + destruct name as [|c name]; [done|].
      unfold PKP_name. destruct (Ascii.ascii_dec (Ascii.ascii_of_nat 83) c) as [<- | Hc].
      * by rewrite !prefix_first_char.
      * by rewrite prefix_first_char in Hsks.
Qed.


End KeysAndPhases.

(** ** The endpoint *)

Lemma bind_lift_ok {A B} (a : A) (f : A → M B) : lift (Ok a) ≫= f = f a.
Proof. unfold mbind, M_bind, bind, lift. by destruct (f a). Qed.

Section Endpoint.

Context {lib : Library}.

Lemma mode_tw params :
  is_Some (params !! "streams") →
  all_supplied tw_params params → none_supplied ev_params params →
  timewindows_mode params = Ok tw.
Proof.
  intros [v Hstreams] Hall Hnone. unfold timewindows_mode. rewrite Hstreams.
  apply params_count_all in Hall; [|apply (bool_decide_unpack _); done].
  apply params_count_none in Hnone. by rewrite Hall, Hnone.
Qed.

Lemma mode_ev params :
  is_Some (params !! "streams") →
  all_supplied ev_params params → none_supplied tw_params params →
  timewindows_mode params = Ok ev.
Proof.
  intros [v Hstreams] Hall Hnone. unfold timewindows_mode. rewrite Hstreams.
  apply params_count_all in Hall; [|apply (bool_decide_unpack _); done].
  apply params_count_none in Hnone. by rewrite Hall, Hnone.
Qed.

(** X13. The endpoint in explicit mode: when [streams], [start] and [end]
    are supplied and decode, and no parameter of the event-relative mode is
    supplied, the endpoint is the explicit resolver on the decoded values. *)
Theorem explicit_request_is_dispatched self params js s e streams ts te :
  params !! "streams" = Some js → json_loads js = Some streams →
  params !! "start" = Some s → fromxml (PyStr s) = Some ts →
  params !! "end" = Some e → fromxml (PyStr e) = Some te →
  none_supplied ev_params params →
  timewindows self params = timewindows_tw self streams ts te.
Proof.
  intros Hjs Hstreams Hs Hts He Hte Hnone.
  unfold timewindows. rewrite mode_tw; [|by eexists| |done].
  2: { intros k Hk. each_member Hk; by eexists. }
  rewrite bind_lift_ok.
  unfold timewindows_params, get_param, conv_json, conv_fromxml,
    DateTimeAttr_fromxml, param_value.
  rewrite Hjs, Hstreams, Hs, Hts, He, Hte.
  cbn [mbind res_bind rbind except_type_value]. by rewrite bind_lift_ok.
Qed.

(** X14. The endpoint in event-relative mode: when [streams] and the five
    parameters of the mode are supplied and decode, and neither [start] nor
    [end] is supplied, the endpoint is the event-relative resolver on the
    decoded values. *)
Theorem event_request_is_dispatched self params js je sp so ep eo
    streams events startphase startoffset endphase endoffset :
  params !! "streams" = Some js → json_loads js = Some streams →
  params !! "events" = Some je → json_loads je = Some events →
  params !! "startphase" = Some sp → py_str (PyStr sp) = Some startphase →
  params !! "startoffset" = Some so → py_float (PyStr so) = Some startoffset →
  params !! "endphase" = Some ep → py_str (PyStr ep) = Some endphase →
  params !! "endoffset" = Some eo → py_float (PyStr eo) = Some endoffset →
  none_supplied tw_params params →
  timewindows self params
  = timewindows_ev self streams events startphase startoffset
      endphase endoffset.
Proof.
  intros Hjs Hstreams Hje Hevents Hsp Hstartphase Hso Hstartoffset
    Hep Hendphase Heo Hendoffset Hnone.
  unfold timewindows. rewrite mode_ev; [|by eexists| |done].
  2: { intros k Hk. each_member Hk; by eexists. }
  rewrite bind_lift_ok.
  unfold timewindows_params, get_param, conv_json, conv_str, conv_float,
    str, float, param_value.
  rewrite Hjs, Hstreams, Hje, Hevents, Hsp, Hstartphase, Hso, Hstartoffset,
    Hep, Hendphase, Heo, Hendoffset.
  cbn [mbind res_bind rbind except_type_value]. by rewrite bind_lift_ok.
Qed.







End Endpoint.

(** ** The export of a selection *)

Lemma string_app_cons x (a b : string) :
  (String x a ++ b = String x (a ++ b))%string.
Proof. done. Qed.

Lemma string_app_assoc (a b c : string) :
  ((a ++ b) ++ c = a ++ (b ++ c))%string.
Proof.
  induction a as [|x a IH]; [done|]. by rewrite !string_app_cons, IH.
Qed.

Lemma string_app_nil_r (a : string) : (a ++ "" = a)%string.
Proof.
  induction a as [|x a IH]; [done|]. by rewrite string_app_cons, IH.
Qed.

Lemma string_length_app (a b : string) :
  String.length (a ++ b) = String.length a + String.length b.
Proof.
  induction a as [|x a IH]; [done|].
  rewrite string_app_cons. cbn [String.length]. by rewrite IH.
Qed.

Lemma count_char_app c (a b : string) :
  count_char c (a ++ b) = count_char c a + count_char c b.
Proof.
  induction a as [|x a IH]; [done|].
  rewrite string_app_cons. cbn [count_char]. rewrite IH. lia.
Qed.

Section ExportProperties.

Context {lib : Library}.

Lemma csv_line_length codes :
  String.length (csv_line codes) = codes_length codes + 7.
Proof.
  destruct codes as [[[knet ksta] kcha] kloc]. unfold csv_line, codes_length.
  rewrite !string_length_app. cbn. lia.
Qed.

Lemma csv_text_length keys :
  String.length (csv_text keys)
  = sum_list ((fun codes => codes_length codes + 7) <$> keys).
Proof.
  induction keys as [|codes keys IH]; [done|].
  cbn [csv_text foldr fmap list_fmap sum_list sum_list_with].
  fold (csv_text keys). by rewrite string_length_app, csv_line_length, IH.
Qed.

(** The loop of the export appends the lines of the keys, if they are all
    well formed. *)
Lemma download_loop streams text text' :
  rfor_each download_step streams text = Ok text'
  ↔ ∃ keys, Forall2 (fun nscl codes => parse_nscl nscl = Ok codes) streams keys
            ∧ text' = (text ++ csv_text keys)%string.
Proof.
  revert text text'. induction streams as [|nscl streams IH]; intros text text'.
  - cbn. split.
    + intros [= <-]. exists []. split; [constructor|].
      by rewrite string_app_nil_r.
    + intros (keys & ->%Forall2_nil_inv_l & ->). by rewrite string_app_nil_r.
  - cbn [rfor_each].
    change (download_step nscl text)
      with (parse_nscl nscl ≫= fun codes => Ok (text ++ csv_line codes)%string).
    destruct (parse_nscl nscl) as [codes|e] eqn:Hkey;
      cbn [mbind res_bind rbind].
    + rewrite IH. split.
      * intros (keys & Hkeys & ->). exists (codes :: keys).
        split; [by constructor|]. by rewrite string_app_assoc.
      * intros (keys & Hkeys & ->).
        apply Forall2_cons_inv_l in Hkeys as (codes' & keys' & Hc & Hkeys & ->).
        rewrite Hkey in Hc. injection Hc as <-. exists keys'.
        split; [done|]. by rewrite string_app_assoc.
    + split; [done|]. intros (keys & Hkeys & _).
      apply Forall2_cons_inv_l in Hkeys as (codes' & keys' & Hc & _ & _).
      by rewrite Hkey in Hc.
Qed.

(** The file that the export makes of well-formed keys. *)
Lemma export_lines params js streams keys :
  params !! "streams" = Some js →
  json_loads js = Some (PyList streams) →
  Forall2 (fun nscl codes => parse_nscl nscl = Ok codes) streams keys →
  download_selection params
  = Ok {| DownFile.text := csv_text keys;
          DownFile.size :=
            sum_list ((fun codes => codes_length codes + 7) <$> keys);
          DownFile.content_type := "text/plain";
          DownFile.filename := "stationSelection.csv" |}.
Proof.
  intros Hjs Hstreams Hkeys. unfold download_selection, conv_json.
  rewrite Hjs, Hstreams. cbn [py_iter mbind res_bind rbind].
  rewrite (proj2 (download_loop streams "" ("" ++ csv_text keys)%string))
    by by exists keys.
  cbn [mbind res_bind rbind].
  change (String.append "" (csv_text keys)) with (csv_text keys).
  unfold DownFile_init. by rewrite csv_text_length.
Qed.

(** X16. The export of a list of keys returns exactly when every key is
    well formed. The file is then named stationSelection.csv, has the type
    text/plain, holds the lines of the keys in the order of the request,
    and its size is the sum over the keys of the lengths of the four codes
    plus 7 (three separators of two characters and a line feed). *)
Theorem export_specification params js streams file :
  params !! "streams" = Some js →
  json_loads js = Some (PyList streams) →
  download_selection params = Ok file
  ↔ ∃ keys,
      Forall2 (fun nscl codes => parse_nscl nscl = Ok codes) streams keys
      ∧ file = {| DownFile.text := csv_text keys;
                  DownFile.size :=
                    sum_list ((fun codes => codes_length codes + 7) <$> keys);
                  DownFile.content_type := "text/plain";
                  DownFile.filename := "stationSelection.csv" |}.
Proof.
  intros Hjs Hstreams. unfold download_selection, conv_json.
  rewrite Hjs, Hstreams. cbn [py_iter mbind res_bind rbind].
  destruct (rfor_each download_step streams "") as [text|e] eqn:Hloop;
    cbn [mbind res_bind rbind].
  - apply download_loop in Hloop as (keys & Hkeys & ->).
    change (String.append "" (csv_text keys)) with (csv_text keys).
    unfold DownFile_init. rewrite csv_text_length. split.
    + intros [= <-]. by exists keys.
    + intros (keys' & Hkeys' & ->).
      assert (keys' = keys) as ->; [|done].
      clear -Hkeys Hkeys'. revert keys keys' Hkeys Hkeys'.
      induction streams as [|nscl streams IH]; intros keys keys' H1 H2.
      * apply Forall2_nil_inv_l in H1, H2. by subst.
      * apply Forall2_cons_inv_l in H1 as (c1 & k1 & Hc1 & H1 & ->).
        apply Forall2_cons_inv_l in H2 as (c2 & k2 & Hc2 & H2 & ->).
        rewrite Hc1 in Hc2. injection Hc2 as <-. f_equal. by apply IH.
  - split; [done|]. intros (keys & Hkeys & _).
    assert (rfor_each download_step streams "" = Ok ("" ++ csv_text keys)%string)
      as Hok by (apply download_loop; by exists keys).
    by rewrite Hok in Hloop.
Qed.

Lemma csv_line_newlines knet ksta kcha kloc :
  count_char newline (csv_line (knet, ksta, kcha, kloc))
  = count_char newline knet + count_char newline ksta
    + count_char newline kcha + count_char newline kloc + 1.
Proof.
  assert (count_char newline ", " = 0%nat) as Hsep by (by vm_compute).
  assert (count_char newline nl = 1%nat) as Hnl by (by vm_compute).
  unfold csv_line. rewrite !count_char_app, !Hsep, Hnl. lia.
Qed.

Lemma csv_text_newlines keys :
  (length keys ≤ count_char newline (csv_text keys))%nat.
Proof.
  induction keys as [|[[[knet ksta] kcha] kloc] keys IH]; [done|].
  cbn [csv_text foldr length]. fold (csv_text keys).
  rewrite count_char_app, csv_line_newlines. lia.
Qed.

Lemma well_formed_keys streams :
  Forall (fun nscl => ∃ codes, parse_nscl nscl = Ok codes) streams →
  ∃ keys, Forall2 (fun nscl codes => parse_nscl nscl = Ok codes) streams keys.
Proof.
  induction 1 as [|nscl streams [codes Hc] _ [keys IH]].
  - exists []. constructor.
  - exists (codes :: keys). by constructor.
Qed.

(** X17. Every list of streams for which the explicit resolver returns can
    be exported, whatever the cache knows and whatever [max_lines] is, and
    the file has at least as many line feeds as the resolver returned
    results. *)
Theorem resolved_streams_can_be_exported self params js streams
    start_time end_time result :
  params !! "streams" = Some js →
  json_loads js = Some (PyList streams) →
  outcome (timewindows_tw self (PyList streams) start_time end_time)
    = Ok result →
  ∃ file, download_selection params = Ok file
          ∧ (length result ≤ count_char newline (DownFile.text file))%nat.
Proof.
  intros Hjs Hstreams Hrun.
  rewrite outcome_timewindows_tw in Hrun.
  pose proof Hrun as (Hall & new & -> & Hnew & _)%tw_loop_specification.
  destruct (well_formed_keys streams Hall) as [keys Hkeys].
  eexists. split.
  - eapply export_lines; [done | done | exact Hkeys].
  - cbn [DownFile.text app].
    apply Forall2_length in Hnew, Hkeys.
    pose proof (length_filter
      (fun nscl => tw_known self start_time end_time nscl = true) streams).
    pose proof (csv_text_newlines keys). lia.
Qed.

(** X18. The export has one line for each stream: when no code contains a
    line feed, the number of line feeds of the text is the number of
    streams. *)
Theorem export_has_one_line_per_stream params js streams keys :
  params !! "streams" = Some js →
  json_loads js = Some (PyList streams) →
  Forall2 (fun nscl codes => parse_nscl nscl = Ok codes) streams keys →
  Forall (fun codes =>
            count_char newline codes.1.1.1 = 0%nat
            ∧ count_char newline codes.1.1.2 = 0%nat
            ∧ count_char newline codes.1.2 = 0%nat
            ∧ count_char newline codes.2 = 0%nat) keys →
  ∃ file, download_selection params = Ok file
          ∧ count_char newline (DownFile.text file) = length streams.
Proof.
  intros Hjs Hstreams Hkeys Hclean.
  eexists. split.
  - eapply export_lines; [done | done | exact Hkeys].
  - cbn [DownFile.text]. rewrite (Forall2_length _ _ _ Hkeys).
    clear Hkeys. induction Hclean as [|[[[knet ksta] kcha] kloc] keys Hc _ IH];
      [done|].
    cbn [csv_text foldr length]. fold (csv_text keys).
    rewrite count_char_app, csv_line_newlines, IH.
    cbn [fst snd] in Hc. lia.
Qed.

End ExportProperties.

(** ** Worked examples of the further properties *)

Lemma larger_cap_same_results_witness :
  (max_lines (with_max_lines 2 ex_self) ≤ 10000)%Z
  ∧ outcome (timewindows_tw (lib := ex_library true) (with_max_lines 2 ex_self)
               (PyList [ex_stream "APE"; ex_stream "FAR"]) 0 3600)
    = Ok [ex_result "APE" 0 3600; ex_result "FAR" 0 3600]
  ∧ outcome (timewindows_tw (lib := ex_library true)
               (with_max_lines 10000 (with_max_lines 2 ex_self))
               (PyList [ex_stream "APE"; ex_stream "FAR"]) 0 3600)
    = Ok [ex_result "APE" 0 3600; ex_result "FAR" 0 3600].
Proof.
  split; [vm_compute; discriminate|].
  split; [vm_compute; reflexivity|].
  apply (larger_cap_same_results (lib := ex_library true)
           (with_max_lines 2 ex_self) 10000).
  - vm_compute; discriminate.
  - vm_compute; reflexivity.
Defined.

Lemma tw_malformed_key_aborts_witness :
  outcome (timewindows_tw (lib := ex_library true) ex_self
             (PyList [ex_stream "APE"]) 0 3600) = Ok [ex_result "APE" 0 3600]
  ∧ parse_nscl (lib := ex_library true) ex_short_key
    = Raise (WIClientError "invalid stream: <value>")
  ∧ outcome (timewindows_tw (lib := ex_library true) ex_self
               (PyList ([ex_stream "APE"] ++ ex_short_key :: [ex_stream "FAR"]))
               0 3600)
    = Raise (WIClientError "invalid stream: <value>").
Proof.
  split; [vm_compute; reflexivity|].
  split; [vm_compute; reflexivity|].
  apply (tw_malformed_key_aborts (lib := ex_library true) ex_self
           [ex_stream "APE"] ex_short_key [ex_stream "FAR"] 0 3600
           [ex_result "APE" 0 3600]).
  - vm_compute; reflexivity.
  - vm_compute; reflexivity.
Defined.



Lemma wrong_phase_is_not_fatal_witness :
  client_error_is_Exception (Library := ex_library true) = true
  ∧ outcome (timewindows_ev (lib := ex_library true) ex_self
               (PyList [ex_stream "APE"; ex_stream "FAR"])
               (PyList [ex_event 10]) "P" (-1) "Rayleigh" 2) = Ok [].
Proof.
  split; [reflexivity|].
  apply (wrong_phase_is_not_fatal (lib := ex_library true)).
  - reflexivity.
  - intros [_ [Hend | Hend]]; discriminate Hend.
  - intros ev Hin. each_member Hin. eexists. vm_compute; reflexivity.
  - intros nscl Hin. each_member Hin; eexists; vm_compute; reflexivity.
Defined.

Lemma ev_request_returns_witness :
  (Z.of_nat (length [ex_stream "APE"; ex_stream "FAR"]
             * length [ex_event 10; ex_event (-1)]) ≤ max_lines ex_self)%Z
  ∧ ∃ result,
      outcome (timewindows_ev (lib := ex_library true) ex_self
                 (PyList [ex_stream "APE"; ex_stream "FAR"])
                 (PyList [ex_event 10; ex_event (-1)]) "P" (-1) "S" 2)
      = Ok result.
Proof.
  split; [vm_compute; discriminate|].
  apply (ev_request_returns (lib := ex_library true)).
  - intros ev Hin. each_member Hin; eexists; vm_compute; reflexivity.
  - intros nscl Hin. each_member Hin; eexists; vm_compute; reflexivity.
  - left; reflexivity.
  - right; reflexivity.
  - intros ev_lat ev_lon ev_dep st_lat st_lon st_alt e.
    cbn [compute ex_self].
    destruct (Qlt_bool ev_dep 0); [by intros [= <-]|].
    by destruct (Qle_bool 120 (st_lon - ev_lon)).
  - vm_compute; discriminate.
Defined.


Lemma explicit_request_is_dispatched_witness :
  ex_params_streams !! "streams" = Some ex_json_streams
  ∧ json_loads (Library := ex_library_json) ex_json_streams
    = Some (PyList [ex_stream "APE"; ex_stream "FAR"])
  ∧ ex_params_streams !! "start" = Some ex_epoch
  ∧ fromxml (Library := ex_library_json) (PyStr ex_epoch) = Some 0%Q
  ∧ ex_params_streams !! "end" = Some ex_epoch
  ∧ none_supplied ev_params ex_params_streams
  ∧ timewindows (lib := ex_library_json) ex_self ex_params_streams
    = timewindows_tw (lib := ex_library_json) ex_self
        (PyList [ex_stream "APE"; ex_stream "FAR"]) 0 0.
Proof.
  do 5 (split; [vm_compute; reflexivity|]).
  assert (none_supplied ev_params ex_params_streams) as Hnone.
  { intros k Hk. by each_member Hk. }
  split; [exact Hnone|].
  apply (explicit_request_is_dispatched (lib := ex_library_json) ex_self
           ex_params_streams ex_json_streams ex_epoch ex_epoch);
    try (vm_compute; reflexivity).
  exact Hnone.
Defined.

Example explicit_request_value :
  timewindows (lib := ex_library_json) ex_self ex_params_streams
  = (Ok [ex_result "APE" 0 0; ex_result "FAR" 0 0], []).
Proof. vm_compute. reflexivity. Qed.

Lemma event_request_is_dispatched_witness :
  ex_params_ev !! "streams" = Some ex_json_streams
  ∧ ex_params_ev !! "events" = Some ex_json_events
  ∧ none_supplied tw_params ex_params_ev
  ∧ timewindows (lib := ex_library_json) ex_self ex_params_ev
    = timewindows_ev (lib := ex_library_json) ex_self
        (PyList [ex_stream "APE"; ex_stream "FAR"]) (PyList [ex_event 10])
        "P" (-1) "S" 2.
Proof.
  do 2 (split; [vm_compute; reflexivity|]).
  assert (none_supplied tw_params ex_params_ev) as Hnone.
  { intros k Hk. by each_member Hk. }
  split; [exact Hnone|].
  apply (event_request_is_dispatched (lib := ex_library_json) ex_self
           ex_params_ev ex_json_streams ex_json_events "P" "-1" "S" "2");
    try (vm_compute; reflexivity).
  exact Hnone.
Defined.

Example event_request_value :
  timewindows (lib := ex_library_json) ex_self ex_params_ev
  = (Ok [ex_result "APE" (-40) 155; ex_result "FAR" 1080 1620], []).
Proof. vm_compute. reflexivity. Qed.


Lemma ex_keys_parse :
  Forall2 (fun nscl codes => parse_nscl (lib := ex_library_json) nscl = Ok codes)
    [ex_stream "APE"; ex_stream "FAR"]
    [("GE", "APE", "BHZ", ""); ("GE", "FAR", "BHZ", "")].
Proof. repeat constructor. Defined.

Lemma export_specification_witness :
  ex_params_streams !! "streams" = Some ex_json_streams
  ∧ json_loads (Library := ex_library_json) ex_json_streams
    = Some (PyList [ex_stream "APE"; ex_stream "FAR"])
  ∧ (download_selection (lib := ex_library_json) ex_params_streams = Ok ex_file
     ↔ ∃ keys,
         Forall2 (fun nscl codes =>
                    parse_nscl (lib := ex_library_json) nscl = Ok codes)
           [ex_stream "APE"; ex_stream "FAR"] keys
         ∧ ex_file
           = {| DownFile.text := csv_text keys;
                DownFile.size :=
                  sum_list ((fun codes => codes_length codes + 7) <$> keys);
                DownFile.content_type := "text/plain";
                DownFile.filename := "stationSelection.csv" |}).
Proof.
  do 2 (split; [vm_compute; reflexivity|]).
  apply (export_specification (lib := ex_library_json) ex_params_streams
           ex_json_streams [ex_stream "APE"; ex_stream "FAR"] ex_file).
  - vm_compute; reflexivity.
  - vm_compute; reflexivity.
Defined.

Example export_value :
  download_selection (lib := ex_library_json) ex_params_streams = Ok ex_file.
Proof. vm_compute. reflexivity. Qed.

Example export_without_streams :
  download_selection (lib := ex_library_json) ex_params_without_streams
  = Raise (WIClientError "invalid or inexistent values in parameter 'streams'").
Proof. vm_compute. reflexivity. Qed.

(** The two streams of the examples are resolved and exported. *)
Lemma resolved_streams_can_be_exported_witness :
  ex_params_streams !! "streams" = Some ex_json_streams
  ∧ json_loads (Library := ex_library_json) ex_json_streams
    = Some (PyList [ex_stream "APE"; ex_stream "FAR"])
  ∧ outcome (timewindows_tw (lib := ex_library_json) ex_self
               (PyList [ex_stream "APE"; ex_stream "FAR"]) 0 3600)
    = Ok [ex_result "APE" 0 3600; ex_result "FAR" 0 3600]
  ∧ ∃ file,
      download_selection (lib := ex_library_json) ex_params_streams = Ok file
      ∧ (length [ex_result "APE" 0 3600; ex_result "FAR" 0 3600]
         ≤ count_char newline (DownFile.text file))%nat.
Proof.
  do 3 (split; [vm_compute; reflexivity|]).
  apply (resolved_streams_can_be_exported (lib := ex_library_json) ex_self
           ex_params_streams ex_json_streams
           [ex_stream "APE"; ex_stream "FAR"] 0 3600).
  - vm_compute; reflexivity.
  - vm_compute; reflexivity.
  - vm_compute; reflexivity.
Defined.

Lemma export_has_one_line_per_stream_witness :
  ex_params_streams !! "streams" = Some ex_json_streams
  ∧ json_loads (Library := ex_library_json) ex_json_streams
    = Some (PyList [ex_stream "APE"; ex_stream "FAR"])
  ∧ ∃ file,
      download_selection (lib := ex_library_json) ex_params_streams = Ok file
      ∧ count_char newline (DownFile.text file)
        = length [ex_stream "APE"; ex_stream "FAR"].
Proof.
  do 2 (split; [vm_compute; reflexivity|]).
  apply (export_has_one_line_per_stream (lib := ex_library_json)
           ex_params_streams ex_json_streams
           [ex_stream "APE"; ex_stream "FAR"]
           [("GE", "APE", "BHZ", ""); ("GE", "FAR", "BHZ", "")]).
  - vm_compute; reflexivity.
  - vm_compute; reflexivity.
  - exact ex_keys_parse.
  - repeat constructor.
Defined.
